(** * Sunbeam MicroCeph steps and MAAS provider: a shallow embedding

    The development follows [sunbeam/commands/microceph.py] and
    [sunbeam/provider/maas.py].  Python integers are [Z], Python strings are
    [string], dictionaries with string keys are [gmap string _], Python sets
    are [gset], raised exceptions are the [Raise] branch of an error monad. *)

From Stdlib Require Import ZArith String Ascii List Lia Bool DecimalString Sorted.
From stdpp Require Import base option gmap strings list fin_maps fin_sets.

Local Open Scope string_scope.
Local Open Scope list_scope.
Local Open Scope Z_scope.

(** ** Results ([sunbeam.jobs.common.Result], used by every step) *)

Inductive ResultType := COMPLETED | FAILED | SKIPPED.

(** [Result(result_type, message=None)]: the message is optional. *)
Record Result := mkResult { result_type : ResultType; message : option string }.

Definition Result1 (t : ResultType) : Result := mkResult t None.
Definition Result2 (t : ResultType) (m : string) : Result := mkResult t (Some m).

(** ** Exceptions and the error monad *)

(** The exception classes the two modules catch or raise; each carries the
    text [str(e)]; [SystemExit] is what [sys.exit] raises.  [OtherException]
    stands for any class the steps never name in an [except] clause. *)
Inductive exn :=
| UnitNotFoundException (msg : string)
| ApplicationNotFoundException (msg : string)
| LeaderNotFoundException (msg : string)
| ActionFailedException (msg : string)
| ClickException (msg : string)
| ValueError (msg : string)
| SystemExit (code : Z)
| OtherException (cls msg : string).

Definition exn_str (e : exn) : string :=
  match e with
  | UnitNotFoundException m | ApplicationNotFoundException m
  | LeaderNotFoundException m | ActionFailedException m
  | ClickException m | ValueError m | OtherException _ m => m
  | SystemExit code => DecimalString.NilZero.string_of_int (Z.to_int code)
  end.

Inductive outcome (A : Type) :=
| Return (a : A)
| Raise (e : exn).
Arguments Return {A} a.
Arguments Raise {A} e.

#[global] Instance outcome_ret : MRet outcome := fun A a => Return a.

(** Sequencing: an exception raised by the first computation skips the
    rest, as a Python statement sequence does.  Written [x ← c; k]. *)
#[global] Instance outcome_bind : MBind outcome := fun A B k c =>
  match c with
  | Return a => k a
  | Raise e => Raise e
  end.

(** ** Python builtins used by the steps *)

(** [min(a, b)] returns the first argument unless the second is strictly
    smaller. *)
Definition py_min (a b : Z) : Z := if b <? a then b else a.

(** [len(l)] as a Python integer. *)
Definition len {A} (l : list A) : Z := Z.of_nat (length l).

(** ** microceph.py: replica scale *)

Definition ceph_replica_scale (storage_nodes : Z) : Z := py_min storage_nodes 3.

(** ** Python values *)

(** What [ast.literal_eval] can produce: the Python literal structures.
    A dict is the list of its items, keys pairwise distinct, in insertion
    order; floats and complex numbers are kept as their literal text. *)
#[warning="-register-all"]
Inductive pyval :=
| PNone
| PBool (b : bool)
| PInt (z : Z)
| PFloat (lit : string)
| PStr (s : string)
| PBytes (s : string)
| PList (l : list pyval)
| PTuple (l : list pyval)
| PSet (l : list pyval)
| PDict (items : list (pyval * pyval)).

(** JSON-like configuration values (answers, preseed, terraform variables):
    dictionaries have string keys. *)
#[warning="-register-all"]
Inductive jval :=
| JNull
| JBool (b : bool)
| JInt (z : Z)
| JStr (s : string)
| JList (l : list jval)
| JDict (m : gmap string jval).

(** The parts of the Python runtime the modules call and that are not
    modelled structurally: [ast.literal_eval] on a string (raising on a
    malformed one), [repr] of a string (used by [!r] in f-strings and by
    [str] of a list), and the order in which a set of strings is iterated,
    which Python leaves unspecified: any enumeration of the elements. *)
Class Python := {
  literal_eval_str : string -> outcome pyval;
  py_repr : string -> string;
  set_iter : gset string -> list string;
  set_iter_perm : forall s, set_iter s ≡ₚ elements s
}.

Definition AttributeError (m : string) : exn := OtherException "AttributeError" m.
Definition TypeError (m : string) : exn := OtherException "TypeError" m.
Definition KeyError (m : string) : exn := OtherException "KeyError" m.

(** [str(x)] for an integer. *)
Definition str_int (z : Z) : string := DecimalString.NilZero.string_of_int (Z.to_int z).

(** [str(x)] for [x] an optional string: [str(None)] is ["None"]. *)
Definition str_opt (o : option string) : string := default "None" o.

(** Truthiness of an optional string: [None] and the empty string are
    falsy. *)
Definition truthy (o : option string) : bool :=
  match o with
  | None | Some EmptyString => false
  | Some _ => true
  end.

(** [s.split(c)] for a one-character separator. *)
Fixpoint py_split (c : ascii) (s : string) : list string :=
  match s with
  | EmptyString => [EmptyString]
  | String a s' =>
      if Ascii.eqb a c then EmptyString :: py_split c s'
      else match py_split c s' with
           | w :: ws => String a w :: ws
           | [] => [String a EmptyString]
           end
  end.

(** [sep.join(l)] for a list of strings. *)
Fixpoint py_join (sep : string) (l : list string) : string :=
  match l with
  | [] => EmptyString
  | [x] => x
  | x :: l' => x +:+ sep +:+ py_join sep l'
  end.

(** [sep.join(l)] for a list of arbitrary values: a non-string item raises
    [TypeError]. *)
Definition as_str (v : pyval) : outcome string :=
  match v with
  | PStr s => Return s
  | _ => Raise (TypeError "sequence item: expected str instance")
  end.

Fixpoint strs_of (l : list pyval) : outcome (list string) :=
  match l with
  | [] => Return []
  | v :: l' => s ← as_str v; ss ← strs_of l'; Return (s :: ss)
  end.

Definition py_join_vals (sep : string) (l : list pyval) : outcome string :=
  ss ← strs_of l; Return (py_join sep ss).

(** [needle in s] for two strings. *)
Fixpoint is_prefix (p s : string) : bool :=
  match p, s with
  | EmptyString, _ => true
  | String a p', String b s' => Ascii.eqb a b && is_prefix p' s'
  | String _ _, EmptyString => false
  end.

Fixpoint str_contains (needle s : string) : bool :=
  is_prefix needle s ||
  match s with
  | EmptyString => false
  | String _ s' => str_contains needle s'
  end.

(** [v == s] for a string [s]: only an equal string compares equal. *)
Definition eq_str (v : pyval) (s : string) : bool :=
  match v with
  | PStr s' => String.eqb s' s
  | _ => false
  end.

(** [d.get(k)] with a string key: only dicts have [get]; a missing key
    gives [None]. *)
Fixpoint items_get (items : list (pyval * pyval)) (k : string) : pyval :=
  match items with
  | [] => PNone
  | (k', v) :: items' => if eq_str k' k then v else items_get items' k
  end.

Definition py_get (d : pyval) (k : string) : outcome pyval :=
  match d with
  | PDict items => Return (items_get items k)
  | _ => Raise (AttributeError "object has no attribute 'get'")
  end.

(** [ast.literal_eval(x)]: a string is parsed, any other value met here is
    rejected as a malformed node. *)
Definition literal_eval `{Python} (v : pyval) : outcome pyval :=
  match v with
  | PStr s => literal_eval_str s
  | _ => Raise (ValueError "malformed node or string")
  end.

(** The items a [for] loop visits. *)
Definition chars (s : string) : list string :=
  (fun a => String a EmptyString) <$> list_ascii_of_string s.

Definition py_iter (v : pyval) : outcome (list pyval) :=
  match v with
  | PList l | PTuple l | PSet l => Return l
  | PDict items => Return (fst <$> items)
  | PStr s => Return (PStr <$> chars s)
  | PBytes s => Return ((fun a => PInt (Z.of_nat (nat_of_ascii a))) <$> list_ascii_of_string s)
  | _ => Raise (TypeError "object is not iterable")
  end.

(** [needle in v] for a string [needle]. *)
Definition py_in (needle : string) (v : pyval) : outcome bool :=
  match v with
  | PStr s => Return (str_contains needle s)
  | PList l | PTuple l | PSet l => Return (existsb (fun x => eq_str x needle) l)
  | PDict items => Return (existsb (fun kv => eq_str (fst kv) needle) items)
  | PBytes _ => Raise (TypeError "a bytes-like object is required, not 'str'")
  | _ => Raise (TypeError "argument is not iterable")
  end.

(** Hashability, needed by [set(...)]: lists, sets and dicts are not
    hashable, a tuple is when its items are. *)
Fixpoint hashable (v : pyval) : bool :=
  match v with
  | PList _ | PSet _ | PDict _ => false
  | PTuple l => forallb hashable l
  | _ => true
  end.

(** [set(l)] raises on an unhashable item. *)
Definition check_hashable (l : list pyval) : outcome () :=
  if forallb hashable l then Return () else Raise (TypeError "unhashable type").

(** The strings among a list of values. *)
Definition str_items (l : list pyval) : list string :=
  omap (fun v => match v with PStr s => Some s | _ => None end) l.

(** Truthiness of a configuration value. *)
Definition jtruthy (v : jval) : bool :=
  match v with
  | JNull => false
  | JBool b => b
  | JInt z => negb (z =? 0)
  | JStr s => negb (String.eqb s EmptyString)
  | JList l => match l with [] => false | _ => true end
  | JDict m => negb (bool_decide (m = ∅))
  end.

(** An optional string as a configuration value: [None] is JSON null. *)
Definition jval_of_opt (o : option string) : jval :=
  match o with
  | None => JNull
  | Some s => JStr s
  end.

(** [d.setdefault(k, v)]: insert only when the key is absent. *)
Definition setdefault (d : gmap string jval) (k : string) (v : jval) : gmap string jval :=
  match d !! k with
  | Some _ => d
  | None => <[k := v]> d
  end.

(** [v.get(k)] and [v.get(k, dflt)] on a configuration value. *)
Definition jget_or (v : jval) (k : string) (dflt : jval) : outcome jval :=
  match v with
  | JDict m => Return (default dflt (m !! k))
  | _ => Raise (AttributeError "object has no attribute 'get'")
  end.

Definition jget (v : jval) (k : string) : outcome jval := jget_or v k JNull.

(** ** Collaborators (the narrow interfaces the steps are given) *)

(** A node record of the cluster database. *)
Record Node := {
  nd_name : string;
  nd_machineid : option Z;
  nd_role : list string
}.

(** [client.cluster] *)
Record Client := {
  get_node_info : string -> outcome Node;
  list_nodes_by_role : string -> list Node
}.

Record Unit := { entity_id : string }.

(** [JujuHelper]; every call is already driven to completion ([run_sync]).
    [run_action unit model action_name action_params] returns the action's
    result mapping. *)
Record JujuHelper := {
  get_unit_from_machine : string -> string -> string -> outcome Unit;
  get_leader_unit : string -> string -> outcome string;
  run_action : string -> string -> string -> option (gmap string jval) ->
               outcome (gmap string string)
}.

(** One invocation of a remote action, as issued through [run_action]. *)
Record action_call := {
  call_unit : string;
  call_model : string;
  call_action : string;
  call_params : option (gmap string jval)
}.

Inductive Networks := MANAGEMENT | STORAGE | STORAGE_CLUSTER.

Record TerraformHelper := { output : gmap string jval }.

Record Deployment := {
  get_tfhelper : string -> TerraformHelper;
  get_space : Networks -> string
}.

(** ** The question/answer store ([sunbeam.jobs.questions]) *)

(** Modelled from the spec: [load_answers] and [write_answers] of
    [sunbeam.jobs.questions] are not part of the sources at hand.  The
    persisted store maps a config group to its mapping; a missing group is
    "no prior answers", and writing replaces the group's mapping. *)
Definition load_answers (store : gmap string (gmap string jval)) (key : string)
  : gmap string jval :=
  default ∅ (store !! key).

Definition write_answers (store : gmap string (gmap string jval)) (key : string)
  (answers : gmap string jval) : gmap string (gmap string jval) :=
  <[key := answers]> store.

(** [questions.PromptQuestion]: the text asked and the default value. *)
Record PromptQuestion := {
  question : string;
  default_value : option string
}.

(** [QuestionBank(...).osd_devices.ask()]: the resolution of one question
    from its default value, the preseed and previous answers of the node,
    the accept-defaults flag and whatever the operator types.  The steps
    only rely on its answer being a string or [None]. *)
Record QuestionBank := {
  ask : PromptQuestion -> jval -> jval -> bool -> outcome (option string)
}.

(** Item access through two levels of nested dictionaries.
    [d[k1].setdefault(k2, v)] and [d[k1][k2][k3] = v]: a missing key raises
    [KeyError], a value that is not a dict has no [setdefault] and does not
    take a string subscript. *)
Definition nested_setdefault (d : gmap string jval) (k1 k2 : string) (v : jval)
  : outcome (gmap string jval) :=
  match d !! k1 with
  | Some (JDict m) => Return (<[k1 := JDict (setdefault m k2 v)]> d)
  | Some _ => Raise (AttributeError "object has no attribute 'setdefault'")
  | None => Raise (KeyError k1)
  end.

Definition nested_setitem (d : gmap string jval) (k1 k2 k3 : string) (v : jval)
  : outcome (gmap string jval) :=
  match d !! k1 with
  | Some (JDict m1) =>
      match m1 !! k2 with
      | Some (JDict m2) => Return (<[k1 := JDict (<[k2 := JDict (<[k3 := v]> m2)]> m1)]> d)
      | Some _ => Raise (TypeError "object does not support item assignment")
      | None => Raise (KeyError k2)
      end
  | Some _ => Raise (TypeError "indices must be integers")
  | None => Raise (KeyError k1)
  end.

(** [",".join(l)] for a configuration list. *)
Fixpoint jstrs_of (l : list jval) : outcome (list string) :=
  match l with
  | [] => Return []
  | JStr s :: l' => ss ← jstrs_of l'; Return (s :: ss)
  | _ :: _ => Raise (TypeError "sequence item: expected str instance")
  end.

(** ** microceph.py *)

Definition CONFIG_KEY : string := "TerraformVarsMicrocephPlan".
Definition CONFIG_DISKS_KEY : string := "TerraformVarsMicroceph".
Definition APPLICATION : string := "microceph".
Definition MICROCEPH_APP_TIMEOUT : Z := 540.
Definition MICROCEPH_UNIT_TIMEOUT : Z := 1200.

Definition microceph_questions : PromptQuestion :=
  {| question := "Disks to attach to MicroCeph (comma separated list)";
     default_value := None |}.

(** Call list-disks action on an unit. *)
Definition list_disks `{Python} (jhelper : JujuHelper) (model unit : string)
  : outcome (pyval * pyval) :=
  action_result ← run_action jhelper unit model "list-disks" None;
  osds ← literal_eval (PStr (default "[]" (action_result !! "osds")));
  unpartitioned_disks ←
    literal_eval (PStr (default "[]" (action_result !! "unpartitioned-disks")));
  Return (osds, unpartitioned_disks).

(** [str(node.get("machineid"))] *)
Definition str_machineid (node : Node) : string :=
  match nd_machineid node with
  | Some z => str_int z
  | None => "None"
  end.

(** [[disk.get("path") for disk in disks]] *)
Fixpoint paths_of (disks : list pyval) : outcome (list pyval) :=
  match disks with
  | [] => Return []
  | disk :: rest => p ← py_get disk "path"; ps ← paths_of rest; Return (p :: ps)
  end.

Module DeployMicrocephApplicationStep.

(** The attributes [extra_tfvars] reads. *)
Record t := {
  deployment : Deployment;
  client : Client
}.

Definition get_application_timeout (self : t) : Z := MICROCEPH_APP_TIMEOUT.

Definition binding (endpoint : option string) (space : string) : jval :=
  JDict (match endpoint with
         | Some e => {[ "endpoint" := JStr e; "space" := JStr space ]}
         | None => {[ "space" := JStr space ]}
         end).

(** Extra terraform vars to pass to terraform apply. *)
Definition extra_tfvars (self : t) : gmap string jval :=
  let openstack_tfhelper := get_tfhelper (deployment self) "openstack-plan" in
  let openstack_tf_output := output openstack_tfhelper in
  let keystone_endpoints_offer_url :=
    default JNull (openstack_tf_output !! "keystone-endpoints-offer-url") in
  let traefik_rgw_offer_url :=
    default JNull (openstack_tf_output !! "ingress-rgw-offer-url") in
  let storage_nodes := list_nodes_by_role (client self) "storage" in
  let space := get_space (deployment self) in
  let charm_microceph_config : gmap string jval :=
    {[ "enable-rgw" := JStr "*"; "namespace-projects" := JBool true ]} in
  let tfvars : gmap string jval :=
    {[ "endpoint_bindings" :=
         JList [ binding None (space MANAGEMENT);
                 binding (Some "admin") (space MANAGEMENT);
                 binding (Some "peers") (space MANAGEMENT);
                 binding (Some "cluster") (space STORAGE_CLUSTER);
                 binding (Some "public") (space STORAGE);
                 binding (Some "ceph") (space STORAGE);
                 binding (Some "mds") (space STORAGE);
                 binding (Some "radosgw") (space STORAGE) ];
       "charm_microceph_config" := JDict charm_microceph_config ]} in
  let tfvars :=
    if jtruthy keystone_endpoints_offer_url
    then <["keystone-endpoints-offer-url" := keystone_endpoints_offer_url]> tfvars
    else tfvars in
  let tfvars :=
    if jtruthy traefik_rgw_offer_url
    then <["ingress-rgw-offer-url" := traefik_rgw_offer_url]> tfvars
    else tfvars in
  if negb (len storage_nodes =? 0)
  then <["charm_microceph_config" :=
           JDict (<["default-pool-size" := JInt (ceph_replica_scale (len storage_nodes))]>
                    charm_microceph_config)]> tfvars
  else tfvars.

End DeployMicrocephApplicationStep.

Module ConfigureMicrocephOSDStep.

Definition _CONFIG : string := CONFIG_DISKS_KEY.

Record t := {
  client : Client;
  node_name : string;
  jhelper : JujuHelper;
  model : string;
  preseed : gmap string jval;
  accept_defaults : bool;
  variables : gmap string jval;
  machine_id : string;
  disks : option string;
  unpartitioned_disks : list pyval;
  osd_disks : list pyval
}.

(** [__init__]: [deployment_preseed or {}], empty selections. *)
Definition init (client : Client) (name : string) (jhelper : JujuHelper)
    (model : string) (deployment_preseed : option (gmap string jval))
    (accept_defaults : bool) : t :=
  {| client := client; node_name := name; jhelper := jhelper; model := model;
     preseed := default ∅ deployment_preseed; accept_defaults := accept_defaults;
     variables := ∅; machine_id := EmptyString; disks := Some EmptyString;
     unpartitioned_disks := []; osd_disks := [] |}.

Definition set_disk_lists (self : t) (mid : string) (osds unpartitioned : list pyval) : t :=
  {| client := client self; node_name := node_name self; jhelper := jhelper self;
     model := model self; preseed := preseed self;
     accept_defaults := accept_defaults self; variables := variables self;
     machine_id := mid; disks := disks self;
     unpartitioned_disks := unpartitioned; osd_disks := osds |}.

Definition set_answers (self : t) (vars pre : gmap string jval) (d : option string) : t :=
  {| client := client self; node_name := node_name self; jhelper := jhelper self;
     model := model self; preseed := pre;
     accept_defaults := accept_defaults self; variables := vars;
     machine_id := machine_id self; disks := d;
     unpartitioned_disks := unpartitioned_disks self; osd_disks := osd_disks self |}.

Definition set_disks (self : t) (d : option string) : t :=
  set_answers self (variables self) (preseed self) d.

(** Return questions for configuring microceph: the one question, its
    default specialised with the local disk information. *)
Definition microceph_config_questions (self : t) : outcome PromptQuestion :=
  disks_str ←
    (if 0 <? len (unpartitioned_disks self)
     then s ← py_join_vals "," (unpartitioned_disks self); Return (Some s)
     else Return None);
  Return {| question := question microceph_questions; default_value := disks_str |}.

(** Get all disks from microceph unit.  [UnitNotFoundException] and
    [ActionFailedException] are turned into a [ClickException]; anything
    else propagates.  The attributes assigned before an exception are
    not observed again, the exception leaves the step. *)
Definition get_all_disks `{Python} (self : t) : outcome t :=
  let attempt : outcome t :=
    node ← get_node_info (client self) (node_name self);
    let machine_id := str_machineid node in
    unit ← get_unit_from_machine (jhelper self) APPLICATION machine_id (model self);
    '(osds, unpartitioned) ← list_disks (jhelper self) (model self) (entity_id unit);
    unpartitioned ← py_iter unpartitioned;
    unpartitioned_disks ← paths_of unpartitioned;
    osds ← py_iter osds;
    osd_disks ← paths_of osds;
    Return (set_disk_lists self machine_id osd_disks unpartitioned_disks) in
  match attempt with
  | Raise (UnitNotFoundException _) | Raise (ActionFailedException _) =>
      Raise (ClickException "Unable to list disks")
  | r => r
  end.

(** Gathers the disk selection and persists it. *)
Definition prompt `{Python} (bank : QuestionBank)
    (store : gmap string (gmap string jval)) (self : t)
  : outcome (gmap string (gmap string jval) * t) :=
  self ← get_all_disks self;
  let name := node_name self in
  let variables := load_answers store _CONFIG in
  let variables := setdefault variables "microceph_config" (JDict ∅) in
  variables ← nested_setdefault variables "microceph_config" name
                (JDict {[ "osd_devices" := JNull ]});
  (* Set defaults *)
  let preseed := setdefault (preseed self) "microceph_config" (JDict ∅) in
  preseed ← nested_setdefault preseed "microceph_config" name
              (JDict {[ "osd_devices" := JNull ]});
  (* Preseed can have osd_devices as list. If so, change to comma separated str *)
  node_preseed ← jget_or (default (JDict ∅) (preseed !! "microceph_config")) name (JDict ∅);
  osd_devices ← jget node_preseed "osd_devices";
  preseed ←
    match osd_devices with
    | JList l =>
        ss ← jstrs_of l;
        nested_setitem preseed "microceph_config" name "osd_devices" (JStr (py_join "," ss))
    | _ => Return preseed
    end;
  q ← microceph_config_questions self;
  bank_preseed ← jget (default (JDict ∅) (preseed !! "microceph_config")) name;
  previous_answers ← jget (default (JDict ∅) (variables !! "microceph_config")) name;
  (* Microceph configuration *)
  answer ← ask bank q bank_preseed previous_answers (accept_defaults self);
  variables ← nested_setitem variables "microceph_config" name "osd_devices"
                (jval_of_opt answer);
  Return (write_answers store _CONFIG variables, set_answers self variables preseed answer).

Definition has_prompts (self : t) : bool := true.

(** Determines if the step should be skipped or not. *)
Definition is_skip `{Python} (self : t) : outcome (Result * t) :=
  match disks self with
  | None | Some EmptyString => Return (Result1 SKIPPED, self)
  | Some selected =>
      (* Remove any disks that are already added *)
      let disks_to_add := py_split "," selected in
      _ ← check_hashable (osd_disks self);
      let disks_to_add : gset string :=
        list_to_set disks_to_add ∖ list_to_set (str_items (osd_disks self)) in
      let remaining := py_join "," (set_iter disks_to_add) in
      let self := set_disks self (Some remaining) in
      if negb (truthy (Some remaining))
      then Return (Result1 SKIPPED, self)
      else Return (Result1 COMPLETED, self)
  end.

(** The loop over the per-item results of a failed [add-osd]: the value
    of [failed] when the loop ends, or the exception that ends it. *)
Fixpoint scan_results (results : list pyval) (failed : bool) : outcome bool :=
  match results with
  | [] => Return failed
  | result :: rest =>
      status ← py_get result "status";
      if eq_str status "failure"
      then
        msg ← py_get result "message";
        already ← py_in "entry already exists" msg;
        if (already : bool)
        then (* disk already added to microceph, ignore the error *)
          _ ← py_get result "spec"; scan_results rest failed
        else scan_results rest true
      else scan_results rest failed
  end.

(** The two [ast.literal_eval] lines of the handler and the items the
    [for] loop then visits: [str(e)] evaluates to a dict whose ["result"]
    entry is itself the text of the list of per-item results. *)
Definition parse_results `{Python} (text : string) : outcome (list pyval) :=
  error ← literal_eval (PStr text);
  payload ← py_get error "result";
  results ← literal_eval payload;
  py_iter results.

(** Configure local disks on microceph.  Returns the remote actions
    issued together with the result (or the exception that escapes). *)
Definition run `{Python} (self : t) : list action_call * outcome Result :=
  let message (e : exn) : string :=
    "Microceph Adding disks " +:+ str_opt (disks self) +:+ " failed: " +:+ exn_str e in
  let handle (e : exn) : outcome Result :=
    match e with
    | UnitNotFoundException _ => Return (Result2 FAILED (message e))
    | ActionFailedException _ =>
        let parsed : outcome bool :=
          results ← parse_results (exn_str e);
          scan_results results false in
        match parsed with
        | Raise _ => Return (Result2 FAILED (message e))
        | Return true => Return (Result2 FAILED (message e))
        | Return false => Return (Result1 COMPLETED)
        end
    | _ => Raise e
    end in
  match get_unit_from_machine (jhelper self) APPLICATION (machine_id self) (model self) with
  | Raise e => ([], handle e)
  | Return unit =>
      let action_params : gmap string jval :=
        {[ "device-id" := jval_of_opt (disks self) ]} in
      let call := {| call_unit := entity_id unit; call_model := model self;
                     call_action := "add-osd"; call_params := Some action_params |} in
      match run_action (jhelper self) (entity_id unit) (model self) "add-osd"
              (Some action_params) with
      | Raise e => ([call], handle e)
      | Return action_result => ([call], Return (Result1 COMPLETED))
      end
  end.

End ConfigureMicrocephOSDStep.

Module SetCephMgrPoolSizeStep.

Record t := {
  client : Client;
  jhelper : JujuHelper;
  model : string;
  storage_nodes : list Node
}.

Definition init (client : Client) (jhelper : JujuHelper) (model : string) : t :=
  {| client := client; jhelper := jhelper; model := model; storage_nodes := [] |}.

(** Determines if the step should be skipped or not. *)
Definition is_skip (self : t) : Result * t :=
  let nodes := list_nodes_by_role (client self) "storage" in
  let self := {| client := client self; jhelper := jhelper self;
                 model := model self; storage_nodes := nodes |} in
  if negb (len (storage_nodes self) =? 0)
  then (Result1 COMPLETED, self)
  else (Result1 SKIPPED, self).

Definition pools : list string :=
  [".mgr"; ".rgw.root"; "default.rgw.log"; "default.rgw.control"; "default.rgw.meta"].

(** [str(pools)]: the [repr] of the items between brackets. *)
Definition str_pools `{Python} : string :=
  "[" +:+ py_join ", " (py_repr <$> pools) +:+ "]".

(** Set ceph mgr pool size.  Returns the remote actions issued together
    with the result (or the exception that escapes). *)
Definition run `{Python} (self : t) : list action_call * outcome Result :=
  let handle (e : exn) : outcome Result :=
    match e with
    | ApplicationNotFoundException _ | LeaderNotFoundException _
    | ActionFailedException _ => Return (Result2 FAILED (exn_str e))
    | _ => Raise e
    end in
  match get_leader_unit (jhelper self) APPLICATION (model self) with
  | Raise e => ([], handle e)
  | Return unit =>
      let action_params : gmap string jval :=
        {[ "pools" := JStr (py_join "," pools);
           "size" := JInt (ceph_replica_scale (len (storage_nodes self))) ]} in
      let call := {| call_unit := unit; call_model := model self;
                     call_action := "set-pool-size";
                     call_params := Some action_params |} in
      match run_action (jhelper self) unit (model self) "set-pool-size"
              (Some action_params) with
      | Raise e => ([call], handle e)
      | Return result =>
          match result !! "status" with
          | None =>
              ([call], Return (Result2 FAILED
                 ("ERROR: Failed to update pool size for " +:+ str_pools)))
          | Some _ => ([call], Return (Result1 COMPLETED))
          end
      end
  end.

End SetCephMgrPoolSizeStep.

(** ** The plan runner ([sunbeam.jobs.common.run_plan]) *)

Module Plan.
Section Runner.

(** Everything a step can read or change: its own attributes, the answer
    store, the remote systems. *)
Context {W : Type}.

(** The step contract: the hooks in the order the runner calls them. *)
Record Step := {
  name : string;
  description : string;
  has_prompts : bool;
  prompt : W -> outcome W;
  is_skip : W -> outcome (Result * W);
  run : W -> outcome (Result * W)
}.

Inductive hook := Prompt | IsSkip | Run.

(** One hook invocation: the position of the step in the plan, the hook,
    and the [Result] it returned (none for [prompt], none when the hook
    raised). *)
Record invocation := {
  inv_step : nat;
  inv_hook : hook;
  inv_result : option Result
}.

Inductive plan_end :=
| PlanSuccess (w : W)
| PlanFailure (step : nat) (r : Result)
| PlanCrash (step : nat) (e : exn).

(** What an execution leaves behind: the hook invocations in the order
    they happened, the result reported for each step reached, and how the
    plan ended. *)
Record report := {
  trace : list invocation;
  results : list (nat * Result);
  ending : plan_end
}.

Definition stop (tr : list invocation) (rs : list (nat * Result)) (e : plan_end) : report :=
  {| trace := tr; results := rs; ending := e |}.

Definition extend (tr : list invocation) (rs : list (nat * Result)) (r : report) : report :=
  {| trace := tr ++ trace r; results := rs ++ results r; ending := ending r |}.

(** Modelled from the spec: [run_plan] of [sunbeam.jobs.common] is not
    part of the sources at hand.  For each step in order: (a) if the step
    declares prompts, invoke [prompt]; (b) invoke [is_skip]; if SKIPPED,
    report and advance without running; if FAILED, abort the remaining
    plan and surface the failure; (c) otherwise invoke [run]; if FAILED,
    abort the remaining plan; otherwise advance.  An exception raised by
    a hook propagates and ends the plan. *)
Fixpoint run_plan_from (i : nat) (plan : list Step) (w : W) : report :=
  match plan with
  | [] => stop [] [] (PlanSuccess w)
  | step :: rest =>
      let '(tr0, prompted) :=
        if has_prompts step
        then ([{| inv_step := i; inv_hook := Prompt; inv_result := None |}], prompt step w)
        else ([], Return w) in
      match prompted with
      | Raise e => stop tr0 [] (PlanCrash i e)
      | Return w =>
          match is_skip step w with
          | Raise e =>
              stop (tr0 ++ [{| inv_step := i; inv_hook := IsSkip; inv_result := None |}])
                   [] (PlanCrash i e)
          | Return (skip_result, w) =>
              let tr1 := tr0 ++ [{| inv_step := i; inv_hook := IsSkip;
                                    inv_result := Some skip_result |}] in
              match result_type skip_result with
              | SKIPPED => extend tr1 [(i, skip_result)] (run_plan_from (S i) rest w)
              | FAILED => stop tr1 [(i, skip_result)] (PlanFailure i skip_result)
              | COMPLETED =>
                  match run step w with
                  | Raise e =>
                      stop (tr1 ++ [{| inv_step := i; inv_hook := Run; inv_result := None |}])
                           [] (PlanCrash i e)
                  | Return (result, w) =>
                      let tr2 := tr1 ++ [{| inv_step := i; inv_hook := Run;
                                            inv_result := Some result |}] in
                      match result_type result with
                      | FAILED => stop tr2 [(i, result)] (PlanFailure i result)
                      | _ => extend tr2 [(i, result)] (run_plan_from (S i) rest w)
                      end
                  end
              end
          end
      end
  end.

Definition run_plan (plan : list Step) (w : W) : report := run_plan_from 0 plan w.

(** The invocation returned a FAILED result. *)
Definition returned_failed (ev : invocation) : Prop :=
  exists r, inv_result ev = Some r /\ result_type r = FAILED.

End Runner.
Arguments Step : clear implicits.
Arguments report : clear implicits.
Arguments plan_end : clear implicits.
End Plan.

(** ** maas.py *)

Module RoleTags.
(** Modelled from the spec: the enumeration [RoleTags] of
    [sunbeam.commands.maas] is not part of the sources at hand; roles are
    tags drawn from the fixed set control/compute/storage. *)
Inductive t := CONTROL | COMPUTE | STORAGE.

Definition value (r : t) : string :=
  match r with
  | CONTROL => "control"
  | COMPUTE => "compute"
  | STORAGE => "storage"
  end.
End RoleTags.

Module Maas.

Definition nl : string := String (ascii_of_nat 10) EmptyString.
Definition tab : string := String (ascii_of_nat 9) EmptyString.

Definition _name_mapper (node : Node) : string := nd_name node.

(** The part of [deploy] between the machines plan and the second plan:
    the role census and the gate on it.  Returns what is printed and
    either the worker names the rest of the command goes on with, or the
    [SystemExit] of [sys.exit(1)]. *)
Definition deploy_topology `{Python} (client : Client)
  : list string * outcome (list string) :=
  let control := _name_mapper <$> list_nodes_by_role client (RoleTags.value RoleTags.CONTROL) in
  let nb_control := len control in
  let compute := _name_mapper <$> list_nodes_by_role client (RoleTags.value RoleTags.COMPUTE) in
  let nb_compute := len compute in
  let storage := _name_mapper <$> list_nodes_by_role client (RoleTags.value RoleTags.STORAGE) in
  let nb_storage := len storage in
  let workers := set_iter (list_to_set (compute ++ control ++ storage)) in
  if nb_control + nb_compute + nb_storage <? 3
  then
    (["Deployments needs at least one of each role to work correctly:"
        +:+ nl +:+ tab +:+ "control: " +:+ str_int (len control)
        +:+ nl +:+ tab +:+ "compute: " +:+ str_int (len compute)
        +:+ nl +:+ tab +:+ "storage: " +:+ str_int (len storage)],
     Raise (SystemExit 1))
  else ([], Return workers).

(** [DiagnosticsResult] of [sunbeam.jobs.checks], by the attributes the
    runners read. *)
Record DiagnosticsResult := {
  dr_name : string;
  passed : bool;
  dr_message : option string
}.

(** What [check.run()] returns: one result or a list of results. *)
Inductive check_returns :=
| OneResult (r : DiagnosticsResult)
| ResultList (l : list DiagnosticsResult).

Record DiagnosticsCheck := {
  name : string;
  description : string;
  run : check_returns
}.

(** [not results]: an empty list is falsy, a result object is truthy. *)
Definition falsy (results : check_returns) : bool :=
  match results with
  | OneResult _ => false
  | ResultList [] => true
  | ResultList (_ :: _) => false
  end.

(** [if isinstance(results, DiagnosticsResult): results = [results]] *)
Definition as_list (results : check_returns) : list DiagnosticsResult :=
  match results with
  | OneResult r => [r]
  | ResultList l => l
  end.

Inductive click_mark := CLICK_OK | CLICK_FAIL.

Definition mark (ok : bool) : click_mark := if ok then CLICK_OK else CLICK_FAIL.

(** The arguments of one [console.print] call. *)
Inductive printed :=
| PrintResult (message : string) (result_message : option string) (m : click_mark)
| PrintSummary (message : string) (m : click_mark).

Section Runners.
Context `{Python}.
(** [DiagnosticsResult.to_dict] and the type of the dicts it makes. *)
Context {D : Type} (to_dict : DiagnosticsResult -> D).

Definition no_results (check : DiagnosticsCheck) : exn :=
  ValueError (py_repr (name check) +:+ " returned no results.").

(** The loop of [_run_maas_checks], from the console output and the
    [check_results] accumulated so far. *)
Fixpoint run_checks_loop (checks : list DiagnosticsCheck)
    (console : list printed) (check_results : list D)
  : list printed * outcome (list D) :=
  match checks with
  | [] => (console, Return check_results)
  | check :: rest =>
      let message := description check +:+ "..." in
      let results := run check in
      if falsy results then (console, Raise (no_results check))
      else
        let results := as_list results in
        let console :=
          console ++ ((fun r => PrintResult message (dr_message r) (mark (passed r)))
                        <$> results) in
        run_checks_loop rest console (check_results ++ (to_dict <$> results))
  end.

(** Run checks sequentially; prints to console every result. *)
Definition _run_maas_checks (checks : list DiagnosticsCheck)
  : list printed * outcome (list D) :=
  run_checks_loop checks [] [].

(** [results[-1].passed] for a list known to be non-empty when read. *)
Definition last_passed (results : list DiagnosticsResult) : outcome bool :=
  match last results with
  | Some r => Return (passed r)
  | None => Raise (OtherException "IndexError" "list index out of range")
  end.

Fixpoint run_meta_checks_loop (checks : list DiagnosticsCheck)
    (console : list printed) (check_results : list D)
  : list printed * outcome (list D) :=
  match checks with
  | [] => (console, Return check_results)
  | check :: rest =>
      let message := description check +:+ "..." in
      let results := run check in
      if falsy results then (console, Raise (no_results check))
      else
        let results := as_list results in
        let check_results := check_results ++ (to_dict <$> results) in
        match last_passed results with
        | Raise e => (console, Raise e)
        | Return ok =>
            run_meta_checks_loop rest (console ++ [PrintSummary message (mark ok)])
              check_results
        end
  end.

(** Run checks sequentially; only prints to console last check result. *)
Definition _run_maas_meta_checks (checks : list DiagnosticsCheck)
  : list printed * outcome (list D) :=
  run_meta_checks_loop checks [] [].

End Runners.

End Maas.

(** ** Vocabulary of the statements *)

(** [SetCephMgrPoolSizeStep] as a step of a plan.  The world is the step's
    attributes and the log of remote actions; [BaseStep] declares no
    prompts. *)
Definition pool_size_step `{Python}
  : Plan.Step (SetCephMgrPoolSizeStep.t * list action_call) :=
  {| Plan.name := "Set Microceph mgr Pool size";
     Plan.description := "Setting Microceph mgr pool size";
     Plan.has_prompts := false;
     Plan.prompt := fun w => Return w;
     Plan.is_skip := fun w =>
       let '(r, self) := SetCephMgrPoolSizeStep.is_skip (fst w) in
       Return (r, (self, snd w));
     Plan.run := fun w =>
       let '(calls, res) := SetCephMgrPoolSizeStep.run (fst w) in
       r ← res; Return (r, (fst w, snd w ++ calls)) |}.

(** The number of nodes the cluster database lists for a role. *)
Definition role_count (client : Client) (role : string) : Z :=
  len (list_nodes_by_role client role).

(** The [set-pool-size] action [run] issues: the five pools, joined, and
    the size. *)
Definition set_pool_size_call (unit model : string) (size : Z) : action_call :=
  {| call_unit := unit; call_model := model; call_action := "set-pool-size";
     call_params :=
       Some {[ "pools" := JStr ".mgr,.rgw.root,default.rgw.log,default.rgw.control,default.rgw.meta";
               "size" := JInt size ]} |}.

(** The disks a selection names: the non-empty entries of the
    comma-separated string ([None] and the empty string name none). *)
Definition selected_disks (selection : option string) : list string :=
  match selection with
  | Some s => filter (fun d => d <> EmptyString) (py_split "," s)
  | None => []
  end.

(** A per-item result of the [add-osd] action. *)
Record item_result := {
  item_spec : string;
  item_status : string;
  item_message : string
}.

(** The dict [v] is the per-item result [it]: its ["status"] and
    ["message"] entries are the strings of [it]. *)
Definition represents (v : pyval) (it : item_result) : Prop :=
  exists d, v = PDict d /\
            items_get d "status" = PStr (item_status it) /\
            items_get d "message" = PStr (item_message it).

(** The item failed for another reason than the disk being there already. *)
Definition fatal (it : item_result) : bool :=
  String.eqb (item_status it) "failure" &&
  negb (str_contains "entry already exists" (item_message it)).

(** The exception the [try] body of [run] ends with, if any. *)
Definition run_raises (self : ConfigureMicrocephOSDStep.t) : option exn :=
  match get_unit_from_machine (ConfigureMicrocephOSDStep.jhelper self) APPLICATION
          (ConfigureMicrocephOSDStep.machine_id self) (ConfigureMicrocephOSDStep.model self) with
  | Raise e => Some e
  | Return unit =>
      match run_action (ConfigureMicrocephOSDStep.jhelper self) (entity_id unit)
              (ConfigureMicrocephOSDStep.model self) "add-osd"
              (Some {[ "device-id" := jval_of_opt (ConfigureMicrocephOSDStep.disks self) ]}) with
      | Raise e => Some e
      | Return _ => None
      end
  end.

(** The message of a FAILED result of [run]. *)
Definition adding_failed (self : ConfigureMicrocephOSDStep.t) (e : exn) : string :=
  "Microceph Adding disks " +:+ str_opt (ConfigureMicrocephOSDStep.disks self)
    +:+ " failed: " +:+ exn_str e.

(** The result carries a non-empty message. *)
Definition has_message (r : Result) : Prop :=
  exists m, message r = Some m /\ m <> EmptyString.

(** The exceptions a Juju helper raises carry a non-empty text. *)
Definition raises_with_text (jhelper : JujuHelper) : Prop :=
  (forall app model e, get_leader_unit jhelper app model = Raise e -> exn_str e <> EmptyString) /\
  (forall unit model action params e,
      run_action jhelper unit model action params = Raise e -> exn_str e <> EmptyString).

(** The remote lookups of [get_all_disks] for a node: the unit on its
    machine, then the [list-disks] action on that unit. *)
Definition disk_lookup (self : ConfigureMicrocephOSDStep.t) (node : Node)
  : outcome (gmap string string) :=
  unit ← get_unit_from_machine (ConfigureMicrocephOSDStep.jhelper self) APPLICATION
           (str_machineid node) (ConfigureMicrocephOSDStep.model self);
  run_action (ConfigureMicrocephOSDStep.jhelper self) (entity_id unit)
    (ConfigureMicrocephOSDStep.model self) "list-disks" None.

(** The exception classes [get_all_disks] names in its [except] clause. *)
Definition known_lookup_failure (e : exn) : bool :=
  match e with
  | UnitNotFoundException _ | ActionFailedException _ => true
  | _ => false
  end.

(** The character occurs in the string. *)
Fixpoint has_char (c : ascii) (s : string) : bool :=
  match s with
  | EmptyString => false
  | String a s' => Ascii.eqb a c || has_char c s'
  end.

(** The check produced zero results. *)
Definition zero_results (c : Maas.DiagnosticsCheck) : bool := Maas.falsy (Maas.run c).

(** The results of all the checks, in order, as the runners collect them. *)
Definition all_results {D : Type} (to_dict : Maas.DiagnosticsResult -> D)
    (checks : list Maas.DiagnosticsCheck) : list D :=
  to_dict <$> flat_map (fun c => Maas.as_list (Maas.run c)) checks.

(** ** Concrete collaborators and steps for the examples *)

(** The double-quote character, as a string. *)
Definition dq : string := String (ascii_of_nat 34) EmptyString.

(** Two per-item results as the [add-osd] action reports them, and the
    text of the exceptions that carry them. *)
Definition duplicate_item : pyval :=
  PDict [(PStr "spec", PStr "/dev/sdb"); (PStr "status", PStr "failure");
         (PStr "message", PStr "failed to record disk: entry already exists")].

Definition busy_item : pyval :=
  PDict [(PStr "spec", PStr "/dev/sdc"); (PStr "status", PStr "failure");
         (PStr "message", PStr "failed to wipe device: device is busy")].

Definition duplicate_text : string :=
  "{'spec': '/dev/sdb', 'status': 'failure', 'message': 'failed to record disk: entry already exists'}".

Definition busy_text : string :=
  "{'spec': '/dev/sdc', 'status': 'failure', 'message': 'failed to wipe device: device is busy'}".

(** [str(e)] of an [ActionFailedException] built from the action output:
    a dict whose [result] entry is the text of the per-item list. *)
Definition payload (inner : string) : string :=
  "{'result': " +:+ dq +:+ inner +:+ dq +:+ "}".

Definition duplicate_only : string := "[" +:+ duplicate_text +:+ "]".
Definition duplicate_and_busy : string := "[" +:+ duplicate_text +:+ ", " +:+ busy_text +:+ "]".

(** A fragment of the interpreter, enough to evaluate the examples:
    [ast.literal_eval] on the literals that occur in them (anything else is
    rejected as a syntax error), [repr] of a string that needs no escape,
    sets iterated in the order of [elements]. *)
Definition fragment_literal_eval (s : string) : outcome pyval :=
  if String.eqb s "[]" then Return (PList [])
  else if String.eqb s "[{'path': '/dev/sdb'}]"
       then Return (PList [PDict [(PStr "path", PStr "/dev/sdb")]])
  else if String.eqb s duplicate_only then Return (PList [duplicate_item])
  else if String.eqb s duplicate_and_busy then Return (PList [duplicate_item; busy_item])
  else if String.eqb s (payload duplicate_only)
       then Return (PDict [(PStr "result", PStr duplicate_only)])
  else if String.eqb s (payload duplicate_and_busy)
       then Return (PDict [(PStr "result", PStr duplicate_and_busy)])
  else Raise (OtherException "SyntaxError" "invalid syntax").

Definition fragment : Python :=
  {| literal_eval_str := fragment_literal_eval;
     py_repr := fun s => "'" +:+ s +:+ "'";
     set_iter := elements;
     set_iter_perm := fun s => Permutation_refl (elements s) |}.

(** A node holding the control role only. *)
Definition control_node (name : string) : Node :=
  {| nd_name := name; nd_machineid := None; nd_role := ["control"] |}.

(** An empty cluster database. *)
Definition no_nodes : Client :=
  {| get_node_info := fun _ => Raise (OtherException "NodeNotExistInClusterException" "no such node");
     list_nodes_by_role := fun _ => [] |}.

(** A cluster database holding three control nodes and nothing else. *)
Definition three_control_nodes : Client :=
  {| get_node_info := fun _ => Raise (OtherException "NodeNotExistInClusterException" "no such node");
     list_nodes_by_role := fun role =>
       if String.eqb role "control"
       then [control_node "node-1"; control_node "node-2"; control_node "node-3"]
       else [] |}.

(** A cluster database that knows every node, on machine 0. *)
Definition any_node : Client :=
  {| get_node_info := fun name =>
       Return {| nd_name := name; nd_machineid := Some 0; nd_role := ["storage"] |};
     list_nodes_by_role := fun _ => [] |}.

(** A question bank that always answers with the default value. *)
Definition default_bank : QuestionBank :=
  {| ask := fun q _ _ _ => Return (default_value q) |}.

(** A spy step: every hook appends its name to the world and returns the
    result type it is told to. *)
Definition spy (name : string) (skip ran : ResultType) : Plan.Step (list string) :=
  {| Plan.name := name;
     Plan.description := name;
     Plan.has_prompts := true;
     Plan.prompt := fun w => Return (w ++ [name +:+ ".prompt"]);
     Plan.is_skip := fun w => Return (Result2 skip (name +:+ ".is_skip"), w ++ [name +:+ ".is_skip"]);
     Plan.run := fun w => Return (Result2 ran (name +:+ ".run"), w ++ [name +:+ ".run"]) |}.

(** Three spies, the second forced to fail in [run]. *)
Definition spy_plan : list (Plan.Step (list string)) :=
  [spy "first" COMPLETED COMPLETED; spy "second" COMPLETED FAILED;
   spy "third" COMPLETED COMPLETED].

(** An OSD step invoked again: the selected disk is already an OSD. *)
Definition second_call : ConfigureMicrocephOSDStep.t :=
  ConfigureMicrocephOSDStep.set_disks
    (ConfigureMicrocephOSDStep.set_disk_lists
       (ConfigureMicrocephOSDStep.init no_nodes "node-1"
          {| get_unit_from_machine := fun _ _ _ => Return {| entity_id := "microceph/0" |};
             get_leader_unit := fun _ _ => Return "microceph/0";
             run_action := fun _ _ _ _ => Return ∅ |}
          "controller" None false)
       "0" [PStr "/dev/sdb"] [])
    (Some "/dev/sdb").

(** An OSD step whose [add-osd] action fails with the given text. *)
Definition add_osd_fails (text : string) (selection : string) : ConfigureMicrocephOSDStep.t :=
  ConfigureMicrocephOSDStep.set_disks
    (ConfigureMicrocephOSDStep.set_disk_lists
       (ConfigureMicrocephOSDStep.init no_nodes "node-1"
          {| get_unit_from_machine := fun _ _ _ => Return {| entity_id := "microceph/0" |};
             get_leader_unit := fun _ _ => Return "microceph/0";
             run_action := fun _ _ _ _ => Raise (ActionFailedException text) |}
          "controller" None false)
       "0" [] [])
    (Some selection).

Definition duplicate_result : item_result :=
  {| item_spec := "/dev/sdb"; item_status := "failure";
     item_message := "failed to record disk: entry already exists" |}.

Definition busy_result : item_result :=
  {| item_spec := "/dev/sdc"; item_status := "failure";
     item_message := "failed to wipe device: device is busy" |}.

(** A pool-size step whose leader lookup fails with the given text. *)
Definition leader_missing (text : string) : SetCephMgrPoolSizeStep.t :=
  SetCephMgrPoolSizeStep.init no_nodes
    {| get_unit_from_machine := fun _ _ _ => Return {| entity_id := "microceph/0" |};
       get_leader_unit := fun _ _ => Raise (LeaderNotFoundException text);
       run_action := fun _ _ _ _ => Return ∅ |}
    "controller".

(** An OSD step on a machine that carries no microceph unit. *)
Definition unit_missing : ConfigureMicrocephOSDStep.t :=
  ConfigureMicrocephOSDStep.init any_node "node-1"
    {| get_unit_from_machine := fun _ _ _ =>
         Raise (UnitNotFoundException "Unit is missing on machine 0");
       get_leader_unit := fun _ _ => Return "microceph/0";
       run_action := fun _ _ _ _ => Return ∅ |}
    "controller" None false.

(** An OSD step on a node whose unit reports no OSD and one unpartitioned
    disk. *)
Definition one_free_disk : ConfigureMicrocephOSDStep.t :=
  ConfigureMicrocephOSDStep.init any_node "node-1"
    {| get_unit_from_machine := fun _ _ _ => Return {| entity_id := "microceph/0" |};
       get_leader_unit := fun _ _ => Return "microceph/0";
       run_action := fun _ _ action _ =>
         if String.eqb action "list-disks"
         then Return {[ "osds" := "[]"; "unpartitioned-disks" := "[{'path': '/dev/sdb'}]" ]}
         else Return ∅ |}
    "controller" None true.

(** ** maas.py: zone tables *)

Module MaasZones.

(** A machine as [list_machines_by_zone] reports it, by the entries the
    tables read. *)
Record Machine := {
  hostname : string;
  roles : list string;
  zone : string;
  status : string
}.

(** A [rich] table, by the headers of its columns and the cells of its
    rows; styling options are left out. *)
Record Table := {
  columns : list string;
  rows : list (list string)
}.

Definition new_table : Table := {| columns := []; rows := [] |}.

Definition add_column (table : Table) (header : string) : Table :=
  {| columns := columns table ++ [header]; rows := rows table |}.

Definition add_row (table : Table) (cells : list string) : Table :=
  {| columns := columns table; rows := rows table ++ [cells] |}.

(** [zone_machines.items()]: the zones in insertion order, each with its
    machines. *)
Definition _zones_table (zone_machines : list (string * list Machine)) : Table :=
  let table := add_column (add_column new_table "Zone") "Machines" in
  foldl (fun table zm => add_row table [fst zm; str_int (len (snd zm))])
        table zone_machines.

(** [Counter.update(iterable)]: one more for every item met. *)
Definition counter_update (counter : gmap string Z) (items : list string) : gmap string Z :=
  foldl (fun c item => <[item := default 0 (c !! item) + 1]> c) counter items.

(** The [role_count] counter of a zone once every machine is counted. *)
Definition count_roles (machines : list Machine) : gmap string Z :=
  foldl (fun c machine => counter_update c (roles machine)) ∅ machines.

(** The cells of a zone in the machine table: a count per role of
    [RoleTags.values()], then the total. *)
Definition role_nb (role_values : list string) (machines : list Machine) : list string :=
  let role_count := count_roles machines in
  ((fun role => str_int (default 0 (role_count !! role))) <$> role_values)
    ++ [str_int (len machines)].

(** The zone table and the machine table that [_zones_roles_table] puts
    side by side in the one row of the table it returns;
    [RoleTags.values()] is given. *)
Definition _zones_roles_table (role_values : list string)
    (zone_machines : list (string * list Machine)) : Table * Table :=
  let zone_table := add_column new_table "#not_shown#" in
  let zone_table := add_row zone_table ["[bold]Zone[/bold]"] in
  let machine_table := foldl add_column new_table role_values in
  let machine_table := add_column machine_table "total" in
  foldl (fun tables zm =>
           (add_row (fst tables) [fst zm],
            add_row (snd tables) (role_nb role_values (snd zm))))
        (zone_table, machine_table) zone_machines.

End MaasZones.

(** ** More vocabulary *)

(** The lines [_run_maas_checks] prints for a check: one per result. *)
Definition result_lines (check : Maas.DiagnosticsCheck) : list Maas.printed :=
  (fun r => Maas.PrintResult (Maas.description check +:+ "...") (Maas.dr_message r)
              (Maas.mark (Maas.passed r)))
    <$> Maas.as_list (Maas.run check).

(** The line [_run_maas_meta_checks] prints for a check with results: the
    mark of the last one. *)
Definition summary_lines (check : Maas.DiagnosticsCheck) : list Maas.printed :=
  match last (Maas.as_list (Maas.run check)) with
  | Some r => [Maas.PrintSummary (Maas.description check +:+ "...") (Maas.mark (Maas.passed r))]
  | None => []
  end.

(** The checks run before the first one without results (all of them when
    there is none). *)
Fixpoint checks_before_failure (checks : list Maas.DiagnosticsCheck)
  : list Maas.DiagnosticsCheck :=
  match checks with
  | [] => []
  | c :: rest => if zero_results c then [] else c :: checks_before_failure rest
  end.

(** The names of the nodes the cluster database lists under a role. *)
Definition role_names (client : Client) (role : string) : list string :=
  nd_name <$> list_nodes_by_role client role.



(** ** More concrete collaborators for the examples *)

(** A store that already holds the answer of another node and another
    config group. *)
Definition two_node_store : gmap string (gmap string jval) :=
  {[ "TerraformVarsMicroceph" :=
       {[ "microceph_config" :=
            JDict {[ "node-2" := JDict {[ "osd_devices" := JStr "/dev/sdx" ]} ]} ]};
     "TerraformVarsMicrocephPlan" := {[ "machine_ids" := JList [JStr "0"] ]} ]}.

(** A question bank that answers with the preseeded value when it is a
    string, and with the default value otherwise. *)
Definition preseed_bank : QuestionBank :=
  {| ask := fun q node_preseed _ _ =>
       match node_preseed with
       | JDict m =>
           match m !! "osd_devices" with
           | Some (JStr s) => Return (Some s)
           | _ => Return (default_value q)
           end
       | _ => Return (default_value q)
       end |}.

(** An OSD step preseeded with a list of disks for its node. *)
Definition preseeded_with_a_list : ConfigureMicrocephOSDStep.t :=
  ConfigureMicrocephOSDStep.init any_node "node-1"
    (ConfigureMicrocephOSDStep.jhelper one_free_disk) "controller"
    (Some {[ "microceph_config" :=
               JDict {[ "node-1" :=
                          JDict {[ "osd_devices" :=
                                     JList [JStr "/dev/sdb"; JStr "/dev/sdc"] ]} ]} ]})
    false.


(** * Theorems *)

(** ** Replica scale *)

(** C2: for every integer [n >= 0], [ceph_replica_scale n] equals
    [min(n, 3)]. *)
Theorem ceph_replica_scale_is_min (n : Z) :
  0 <= n -> ceph_replica_scale n = Z.min n 3.
Proof.
  intros _. unfold ceph_replica_scale, py_min.
  destruct (3 <? n) eqn:E; [apply Z.ltb_lt in E | apply Z.ltb_ge in E]; lia.
Qed.

Lemma ceph_replica_scale_is_min_witness :
  0 <= 5 /\ ceph_replica_scale 5 = Z.min 5 3.
Proof. split; [lia | apply (ceph_replica_scale_is_min 5); lia]. Defined.

Lemma len_nonneg {A} (l : list A) : 0 <= len l.
Proof. unfold len. lia. Qed.

Lemma len_zero_iff {A} (l : list A) : len l = 0 <-> l = [].
Proof.
  unfold len. destruct l; simpl; split; intros E; try done; lia.
Qed.

Lemma ceph_replica_scale_len {A} (l : list A) :
  ceph_replica_scale (len l) = Z.min (len l) 3.
Proof.
  unfold ceph_replica_scale, py_min.
  destruct (3 <? len l) eqn:E; [apply Z.ltb_lt in E | apply Z.ltb_ge in E]; lia.
Qed.

(** ** Pool size follows the storage-node count *)

Lemma extra_tfvars_charm_config (self : DeployMicrocephApplicationStep.t) :
  let n := role_count (DeployMicrocephApplicationStep.client self) "storage" in
  DeployMicrocephApplicationStep.extra_tfvars self !! "charm_microceph_config" =
    Some (JDict (if n =? 0
                 then {[ "enable-rgw" := JStr "*"; "namespace-projects" := JBool true ]}
                 else <["default-pool-size" := JInt (Z.min n 3)]>
                        {[ "enable-rgw" := JStr "*"; "namespace-projects" := JBool true ]})).
Proof.
  intros n. unfold DeployMicrocephApplicationStep.extra_tfvars.
  fold (role_count (DeployMicrocephApplicationStep.client self) "storage"). fold n.
  destruct (n =? 0) eqn:En; simpl.
  - repeat case_match; by simplify_map_eq.
  - rewrite lookup_insert_eq. unfold n, role_count. by rewrite ceph_replica_scale_len.
Qed.

Lemma pool_size_is_skip (self : SetCephMgrPoolSizeStep.t) :
  let n := role_count (SetCephMgrPoolSizeStep.client self) "storage" in
  SetCephMgrPoolSizeStep.is_skip self =
    (Result1 (if n =? 0 then SKIPPED else COMPLETED),
     {| SetCephMgrPoolSizeStep.client := SetCephMgrPoolSizeStep.client self;
        SetCephMgrPoolSizeStep.jhelper := SetCephMgrPoolSizeStep.jhelper self;
        SetCephMgrPoolSizeStep.model := SetCephMgrPoolSizeStep.model self;
        SetCephMgrPoolSizeStep.storage_nodes :=
          list_nodes_by_role (SetCephMgrPoolSizeStep.client self) "storage" |}).
Proof.
  intros n. unfold SetCephMgrPoolSizeStep.is_skip, n, role_count. simpl.
  by destruct (len _ =? 0).
Qed.

Lemma pool_size_run_calls `{Python} (self : SetCephMgrPoolSizeStep.t) :
  fst (SetCephMgrPoolSizeStep.run self) =
    match get_leader_unit (SetCephMgrPoolSizeStep.jhelper self) APPLICATION
            (SetCephMgrPoolSizeStep.model self) with
    | Return unit =>
        [set_pool_size_call unit (SetCephMgrPoolSizeStep.model self)
           (Z.min (len (SetCephMgrPoolSizeStep.storage_nodes self)) 3)]
    | Raise _ => []
    end.
Proof.
  unfold SetCephMgrPoolSizeStep.run, set_pool_size_call.
  rewrite ceph_replica_scale_len.
  destruct (get_leader_unit _ _ _) as [unit|e]; [|done].
  destruct (run_action _ _ _ _ _) as [result|e]; [|done].
  by destruct (result !! "status").
Qed.

(** C3: with [n] storage nodes listed by the cluster database,
    [extra_tfvars] carries ["default-pool-size"] equal to [min(n, 3)] in
    [charm_microceph_config] when [n >= 1] and omits the key when [n = 0];
    [SetCephMgrPoolSizeStep.is_skip] returns COMPLETED when [n >= 1] and
    SKIPPED when [n = 0]; the only remote action [run] issues after it is
    [set-pool-size] on the leader unit with size [min(n, 3)]; and run as a
    plan, the step's [run] hook is invoked when [n >= 1] and never when
    [n = 0]. *)
Theorem pool_size_only_with_storage_nodes `{Python}
    (client : Client) (deployment : Deployment) (jhelper : JujuHelper)
    (model : string) (log : list action_call) :
  let n := role_count client "storage" in
  let deploy := {| DeployMicrocephApplicationStep.deployment := deployment;
                   DeployMicrocephApplicationStep.client := client |} in
  let step := SetCephMgrPoolSizeStep.init client jhelper model in
  (exists cfg,
      DeployMicrocephApplicationStep.extra_tfvars deploy !! "charm_microceph_config"
        = Some (JDict cfg) /\
      cfg !! "default-pool-size" = if n =? 0 then None else Some (JInt (Z.min n 3))) /\
  fst (SetCephMgrPoolSizeStep.is_skip step) = Result1 (if n =? 0 then SKIPPED else COMPLETED) /\
  fst (SetCephMgrPoolSizeStep.run (snd (SetCephMgrPoolSizeStep.is_skip step))) =
    match get_leader_unit jhelper APPLICATION model with
    | Return unit => [set_pool_size_call unit model (Z.min n 3)]
    | Raise _ => []
    end /\
  Plan.inv_hook <$> Plan.trace (Plan.run_plan [pool_size_step] (step, log)) =
    if n =? 0 then [Plan.IsSkip] else [Plan.IsSkip; Plan.Run].
Proof.
  intros n deploy step. repeat split.
  - eexists. split; [apply extra_tfvars_charm_config|].
    simpl. fold n. destruct (n =? 0); by simplify_map_eq.
  - by rewrite pool_size_is_skip.
  - rewrite pool_size_run_calls, pool_size_is_skip. done.
  - unfold Plan.run_plan. simpl. rewrite pool_size_is_skip. simpl. fold n.
    destruct (n =? 0); simpl; [done|].
    destruct (SetCephMgrPoolSizeStep.run _) as [calls [r|e]]; simpl; [|done].
    by destruct (result_type r).
Qed.

(** ** The topology gate of [deploy] *)

Lemma len_fmap {A B} (f : A -> B) (l : list A) : len (f <$> l) = len l.
Proof. unfold len. by rewrite length_fmap. Qed.

Lemma deploy_topology_cases `{Python} (client : Client) :
  let total := role_count client "control" + role_count client "compute"
               + role_count client "storage" in
  (total < 3 /\ exists msg, Maas.deploy_topology client = ([msg], Raise (SystemExit 1))) \/
  (3 <= total /\ exists workers, Maas.deploy_topology client = ([], Return workers)).
Proof.
  intros total. subst total. unfold role_count, Maas.deploy_topology.
  cbv zeta. rewrite !len_fmap. simpl RoleTags.value.
  destruct (_ <? 3) eqn:E; [apply Z.ltb_lt in E | apply Z.ltb_ge in E].
  - left. eauto.
  - right. eauto.
Qed.

(** C10: the topology gate of the MAAS [deploy] command exits with an
    error exactly when the counts of control, compute and storage role
    assignments sum to less than 3, and lets the command go on otherwise;
    three control nodes with no compute and no storage node pass the gate,
    while the message of the gate asks for one node of each role. *)
Theorem deploy_gate_counts_role_assignments `{Python} (client : Client) :
  let total := role_count client "control" + role_count client "compute"
               + role_count client "storage" in
  (snd (Maas.deploy_topology client) = Raise (SystemExit 1) <-> total < 3) /\
  ((exists workers, snd (Maas.deploy_topology client) = Return workers) <-> 3 <= total) /\
  (exists workers, Maas.deploy_topology three_control_nodes = ([], Return workers)) /\
  (exists counts, fst (Maas.deploy_topology no_nodes)
     = ["Deployments needs at least one of each role to work correctly:" +:+ counts]).
Proof.
  intros total.
  assert (Hthree : exists workers,
             Maas.deploy_topology three_control_nodes = ([], Return workers)).
  { destruct (deploy_topology_cases three_control_nodes) as [[Hc _]|[_ Hc]];
      [vm_compute in Hc; done | done]. }
  assert (Hnone : exists counts, fst (Maas.deploy_topology no_nodes)
     = ["Deployments needs at least one of each role to work correctly:" +:+ counts]).
  { eexists. vm_compute. reflexivity. }
  destruct (deploy_topology_cases client) as [[Hlt [msg E]]|[Hge [ws E]]];
    fold total in Hlt || fold total in Hge; rewrite E; simpl.
  - split; [done|]. split; [|done].
    split; [intros [ws Hws]; discriminate | lia].
  - split; [split; [discriminate | lia]|].
    split; [|done]. split; [done | eauto].
Qed.

(** ** Check runners *)

Section CheckRunners.
Context `{Python} {D : Type} (to_dict : Maas.DiagnosticsResult -> D).

Lemma falsy_as_list (results : Maas.check_returns) :
  Maas.falsy results = true <-> Maas.as_list results = [].
Proof. destruct results as [r|[|r l]]; simpl; split; congruence. Qed.

Lemma last_passed_defined (results : Maas.check_returns) :
  Maas.falsy results = false ->
  exists ok, Maas.last_passed (Maas.as_list results) = Return ok.
Proof.
  intros Hf. unfold Maas.last_passed.
  destruct (last (Maas.as_list results)) as [r|] eqn:E; [eauto|].
  apply last_None in E. apply falsy_as_list in E. congruence.
Qed.

Lemma run_checks_loop_spec checks console acc :
  snd (Maas.run_checks_loop to_dict checks console acc) =
    match List.find zero_results checks with
    | Some c => Raise (Maas.no_results c)
    | None => Return (acc ++ all_results to_dict checks)
    end.
Proof.
  revert console acc. induction checks as [|c checks IH]; intros console acc; simpl.
  - unfold all_results. simpl. by rewrite app_nil_r.
  - unfold zero_results at 1. destruct (Maas.falsy (Maas.run c)) eqn:Hf; [done|].
    rewrite IH. destruct (List.find _ _); [done|].
    unfold all_results. simpl. by rewrite fmap_app, app_assoc.
Qed.

Lemma run_meta_checks_loop_spec checks console acc :
  snd (Maas.run_meta_checks_loop to_dict checks console acc) =
    match List.find zero_results checks with
    | Some c => Raise (Maas.no_results c)
    | None => Return (acc ++ all_results to_dict checks)
    end.
Proof.
  revert console acc. induction checks as [|c checks IH]; intros console acc; simpl.
  - unfold all_results. simpl. by rewrite app_nil_r.
  - unfold zero_results at 1. destruct (Maas.falsy (Maas.run c)) eqn:Hf; [done|].
    destruct (last_passed_defined _ Hf) as [ok ->].
    rewrite IH. destruct (List.find _ _); [done|].
    unfold all_results. simpl. by rewrite fmap_app, app_assoc.
Qed.

(** C7: both check runners raise [ValueError] naming the first check
    whose [run] produces zero results, and a list of checks that all
    produce at least one result is run to the end, returning every
    result: a check with a result never triggers the error. *)
Theorem check_without_results_raises (checks : list Maas.DiagnosticsCheck) :
  match List.find (fun c => Maas.falsy (Maas.run c)) checks with
  | Some c =>
      Maas.as_list (Maas.run c) = [] /\
      snd (Maas._run_maas_checks to_dict checks)
        = Raise (ValueError (py_repr (Maas.name c) +:+ " returned no results.")) /\
      snd (Maas._run_maas_meta_checks to_dict checks)
        = Raise (ValueError (py_repr (Maas.name c) +:+ " returned no results."))
  | None =>
      Forall (fun c => Maas.as_list (Maas.run c) <> []) checks /\
      snd (Maas._run_maas_checks to_dict checks) = Return (all_results to_dict checks) /\
      snd (Maas._run_maas_meta_checks to_dict checks) = Return (all_results to_dict checks)
  end.
Proof.
  unfold Maas._run_maas_checks, Maas._run_maas_meta_checks.
  rewrite run_checks_loop_spec, run_meta_checks_loop_spec.
  fold zero_results.
  destruct (List.find zero_results checks) as [c|] eqn:E.
  - apply find_some in E as [_ E]. by apply falsy_as_list in E.
  - split; [|done]. apply Forall_forall. intros c Hc Hnil.
    apply list_elem_of_In in Hc.
    apply (find_none _ _ E) in Hc. apply falsy_as_list in Hnil.
    unfold zero_results in Hc. congruence.
Qed.

End CheckRunners.

(** ** The plan runner is sequential and fail-fast *)

Section PlanProperties.
Context {W : Type}.
Implicit Types (plan : list (Plan.Step W)) (w : W) (ev : @Plan.invocation).

(** The trace of a plan is made of the invocations on its first step,
    all at that step's position, followed either by nothing (the plan
    ended there, and a FAILED invocation is then the last one) or by the
    trace of the remaining steps (and then no invocation on the first
    step returned FAILED). *)
Lemma run_plan_from_cons i (step : Plan.Step W) plan w :
  exists here,
    Forall (fun ev => Plan.inv_step ev = i) here /\
    ((Plan.trace (Plan.run_plan_from i (step :: plan) w) = here /\
      forall ev, ev ∈ here -> Plan.returned_failed ev -> last here = Some ev) \/
     (exists w', Plan.trace (Plan.run_plan_from i (step :: plan) w)
                 = here ++ Plan.trace (Plan.run_plan_from (S i) plan w') /\
                 Forall (fun ev => ~ Plan.returned_failed ev) here)).
Proof.
  simpl.
  assert (Hlast : forall (pre : list Plan.invocation) ev ev',
             Forall (fun e => ~ Plan.returned_failed e) pre ->
             ev' ∈ pre ++ [ev] -> Plan.returned_failed ev' ->
             last (pre ++ [ev]) = Some ev').
  { intros pre ev ev' Hpre Hin Hf. rewrite last_snoc.
    apply elem_of_app in Hin as [Hin|Hin].
    - rewrite Forall_forall in Hpre. by destruct (Hpre _ Hin).
    - apply list_elem_of_singleton in Hin. by subst. }
  assert (Hno : forall h, ~ Plan.returned_failed
             {| Plan.inv_step := i; Plan.inv_hook := h; Plan.inv_result := None |}).
  { intros h [r [Hr _]]. discriminate. }
  set (tr0 := if Plan.has_prompts step
              then [{| Plan.inv_step := i; Plan.inv_hook := Plan.Prompt;
                       Plan.inv_result := None |}]
              else []).
  assert (H0 : Forall (fun ev => Plan.inv_step ev = i) tr0)
    by (unfold tr0; destruct (Plan.has_prompts step); repeat constructor).
  assert (N0 : Forall (fun ev => ~ Plan.returned_failed ev) tr0)
    by (unfold tr0; destruct (Plan.has_prompts step); repeat constructor; apply Hno).
  assert (Hshape :
    (if Plan.has_prompts step
     then ([{| Plan.inv_step := i; Plan.inv_hook := Plan.Prompt;
               Plan.inv_result := None |}], Plan.prompt step w)
     else ([], Return w))
    = (tr0, if Plan.has_prompts step then Plan.prompt step w else Return w))
    by (unfold tr0; destruct (Plan.has_prompts step); reflexivity).
  rewrite Hshape. clear Hshape.
  destruct (if Plan.has_prompts step then Plan.prompt step w else Return w)
    as [w1|e]; simpl.
  2:{ exists tr0. split; [done|]. left. split; [done|].
      intros ev Hin Hf. rewrite Forall_forall in N0. by destruct (N0 _ Hin). }
  destruct (Plan.is_skip step w1) as [[skip w2]|e]; simpl.
  2:{ eexists. split; [|left; split; [reflexivity|]].
      - apply Forall_app. split; [done|]. by repeat constructor.
      - intros ev Hin Hf. apply (Hlast _ _ _ N0 Hin Hf). }
  set (ev1 := {| Plan.inv_step := i; Plan.inv_hook := Plan.IsSkip;
                 Plan.inv_result := Some skip |}).
  assert (H1 : Forall (fun ev => Plan.inv_step ev = i) (tr0 ++ [ev1]))
    by (apply Forall_app; split; [done|]; by repeat constructor).
  destruct (result_type skip) eqn:Hskip; simpl.
  - (* COMPLETED: the step is run *)
    assert (N1 : Forall (fun ev => ~ Plan.returned_failed ev) (tr0 ++ [ev1])).
    { apply Forall_app. split; [done|]. repeat constructor.
      intros [r [Hr Hf]]. simpl in Hr. congruence. }
    destruct (Plan.run step w2) as [[result w3]|e]; simpl.
    2:{ eexists. split; [|left; split; [reflexivity|]].
        - apply Forall_app. split; [done|]. by repeat constructor.
        - intros ev Hin Hf. apply (Hlast _ _ _ N1 Hin Hf). }
    set (ev2 := {| Plan.inv_step := i; Plan.inv_hook := Plan.Run;
                   Plan.inv_result := Some result |}).
    assert (H2 : Forall (fun ev => Plan.inv_step ev = i) ((tr0 ++ [ev1]) ++ [ev2]))
      by (apply Forall_app; split; [done|]; by repeat constructor).
    destruct (result_type result) eqn:Hres; simpl.
    + eexists. split; [exact H2|]. right. exists w3. split; [done|].
      apply Forall_app. split; [done|]. repeat constructor.
      intros [r [Hr Hf]]. simpl in Hr. congruence.
    + eexists. split; [exact H2|]. left. split; [done|].
      intros ev Hin Hf. apply (Hlast _ _ _ N1 Hin Hf).
    + eexists. split; [exact H2|]. right. exists w3. split; [done|].
      apply Forall_app. split; [done|]. repeat constructor.
      intros [r [Hr Hf]]. simpl in Hr. congruence.
  - (* FAILED from is_skip *)
    eexists. split; [exact H1|]. left. split; [done|].
    intros ev Hin Hf. apply (Hlast _ _ _ N0 Hin Hf).
  - (* SKIPPED *)
    eexists. split; [exact H1|]. right. exists w2. split; [done|].
    apply Forall_app. split; [done|]. repeat constructor.
    intros [r [Hr Hf]]. simpl in Hr. congruence.
Qed.

(** Invocations made from position [i] on are at positions [>= i]. *)
Lemma trace_steps_from plan : forall i w ev,
  ev ∈ Plan.trace (Plan.run_plan_from i plan w) -> (i <= Plan.inv_step ev)%nat.
Proof.
  induction plan as [|step plan IH]; intros i w ev Hin.
  - simpl in Hin. by apply elem_of_nil in Hin.
  - destruct (run_plan_from_cons i step plan w) as [here [Hhere [[E _]|[w' [E _]]]]];
      rewrite E in Hin; rewrite Forall_forall in Hhere.
    + rewrite (Hhere _ Hin). lia.
    + apply elem_of_app in Hin as [Hin|Hin].
      * rewrite (Hhere _ Hin). lia.
      * apply IH in Hin. lia.
Qed.

(** The trace never goes back to an earlier step. *)
Lemma trace_in_plan_order plan : forall i w,
  StronglySorted (fun a b => (Plan.inv_step a <= Plan.inv_step b)%nat)
    (Plan.trace (Plan.run_plan_from i plan w)).
Proof.
  induction plan as [|step plan IH]; intros i w.
  - simpl. constructor.
  - assert (Hsame : forall here : list Plan.invocation,
               Forall (fun ev => Plan.inv_step ev = i) here ->
               StronglySorted (fun a b => (Plan.inv_step a <= Plan.inv_step b)%nat) here).
    { induction 1 as [|a l Ha Hl IHl]; constructor; [done|].
      eapply Forall_impl; [exact Hl|]. simpl. intros b Hb. lia. }
    destruct (run_plan_from_cons i step plan w) as [here [Hhere [[E _]|[w' [E _]]]]];
      rewrite E.
    + by apply Hsame.
    + clear E. induction Hhere as [|a l Ha Hl IHl]; simpl; [apply IH|].
      constructor; [exact IHl|].
      apply Forall_app. split.
      * eapply Forall_impl; [exact Hl|]. simpl. intros b Hb. lia.
      * apply Forall_forall. intros b Hb. apply trace_steps_from in Hb. lia.
Qed.

(** A FAILED result ends the trace. *)
Lemma failed_invocation_is_last plan : forall i w ev,
  ev ∈ Plan.trace (Plan.run_plan_from i plan w) -> Plan.returned_failed ev ->
  last (Plan.trace (Plan.run_plan_from i plan w)) = Some ev.
Proof.
  induction plan as [|step plan IH]; intros i w ev Hin Hf.
  - simpl in Hin. by apply elem_of_nil in Hin.
  - destruct (run_plan_from_cons i step plan w) as [here [Hhere [[E Hl]|[w' [E Hn]]]]];
      rewrite E in Hin |- *.
    + by apply Hl.
    + apply elem_of_app in Hin as [Hin|Hin].
      * rewrite Forall_forall in Hn. by destruct (Hn _ Hin).
      * specialize (IH _ _ _ Hin Hf).
        destruct (Plan.trace (Plan.run_plan_from (S i) plan w')) as [|x l] eqn:Et;
          [done|].
        rewrite last_app. by rewrite IH.
Qed.

End PlanProperties.

Lemma sorted_last_bound {A} (f : A -> nat) (l : list A) (x : A) :
  StronglySorted (fun a b => (f a <= f b)%nat) l -> last l = Some x ->
  forall y, y ∈ l -> (f y <= f x)%nat.
Proof.
  induction 1 as [|a l Hs IH Hall]; intros Hlast y Hy.
  - by apply elem_of_nil in Hy.
  - destruct l as [|b l'].
    + simpl in Hlast. injection Hlast as ->.
      apply list_elem_of_singleton in Hy. by subst.
    + apply elem_of_cons in Hy as [->|Hy].
      * rewrite Forall_forall in Hall. apply Hall.
        apply last_Some_elem_of. exact Hlast.
      * by apply IH.
Qed.

(** C1: if a step at position [i] of a plan returns a FAILED result from
    [is_skip] or from [run], no hook of a step at a later position is
    invoked: every invocation of the execution is at a position [<= i],
    the failing invocation is the last one, and the invocations follow the
    order of the plan. *)
Theorem plan_is_sequential_and_fail_fast {W : Type}
    (plan : list (Plan.Step W)) (w : W) (i : nat) (h : Plan.hook) (r : Result) :
  {| Plan.inv_step := i; Plan.inv_hook := h; Plan.inv_result := Some r |}
    ∈ Plan.trace (Plan.run_plan plan w) ->
  result_type r = FAILED ->
  (forall j h' r', (i < j)%nat ->
     {| Plan.inv_step := j; Plan.inv_hook := h'; Plan.inv_result := r' |}
       ∉ Plan.trace (Plan.run_plan plan w)) /\
  last (Plan.trace (Plan.run_plan plan w))
    = Some {| Plan.inv_step := i; Plan.inv_hook := h; Plan.inv_result := Some r |} /\
  StronglySorted (fun a b => (Plan.inv_step a <= Plan.inv_step b)%nat)
    (Plan.trace (Plan.run_plan plan w)).
Proof.
  intros Hin Hfailed. unfold Plan.run_plan in *.
  assert (Hf : Plan.returned_failed
                 {| Plan.inv_step := i; Plan.inv_hook := h; Plan.inv_result := Some r |})
    by (exists r; done).
  pose proof (failed_invocation_is_last plan 0%nat w _ Hin Hf) as Hlast.
  pose proof (trace_in_plan_order plan 0%nat w) as Hsorted.
  split; [|done].
  intros j h' r' Hlt Hj.
  pose proof (sorted_last_bound Plan.inv_step _ _ Hsorted Hlast _ Hj) as Hle.
  simpl in Hle. lia.
Qed.

Lemma plan_is_sequential_and_fail_fast_witness :
  (forall j h' r', (1 < j)%nat ->
     {| Plan.inv_step := j; Plan.inv_hook := h'; Plan.inv_result := r' |}
       ∉ Plan.trace (Plan.run_plan spy_plan [])) /\
  last (Plan.trace (Plan.run_plan spy_plan []))
    = Some {| Plan.inv_step := 1; Plan.inv_hook := Plan.Run;
              Plan.inv_result := Some (Result2 FAILED "second.run") |} /\
  StronglySorted (fun a b => (Plan.inv_step a <= Plan.inv_step b)%nat)
    (Plan.trace (Plan.run_plan spy_plan [])).
Proof.
  apply (plan_is_sequential_and_fail_fast spy_plan [] 1%nat Plan.Run
           (Result2 FAILED "second.run")).
  - vm_compute. repeat constructor.
  - reflexivity.
Defined.

(** ** Splitting and joining *)

Lemma py_split_nonempty c s : py_split c s <> [].
Proof.
  destruct s as [|a s]; simpl; [done|].
  destruct (Ascii.eqb a c); [done|]. by destruct (py_split c s).
Qed.

Lemma py_split_entries c s : forall w, w ∈ py_split c s -> has_char c w = false.
Proof.
  induction s as [|a s IH]; simpl; intros w Hw.
  - apply list_elem_of_singleton in Hw. by subst.
  - destruct (Ascii.eqb a c) eqn:Ea.
    + apply elem_of_cons in Hw as [->|Hw]; [done|by apply IH].
    + destruct (py_split c s) as [|w0 ws] eqn:Es.
      * apply list_elem_of_singleton in Hw. subst. simpl. by rewrite Ea.
      * apply elem_of_cons in Hw as [->|Hw].
        -- simpl. rewrite Ea. simpl. apply IH. left.
        -- apply IH. by right.
Qed.

Lemma py_split_word c w : has_char c w = false -> py_split c w = [w].
Proof.
  induction w as [|a w IH]; simpl; [done|].
  intros Hc. apply orb_false_iff in Hc as [-> Hc]. by rewrite (IH Hc).
Qed.

Lemma py_split_word_sep c w s :
  has_char c w = false -> py_split c (w +:+ String c s) = w :: py_split c s.
Proof.
  induction w as [|a w IH]; simpl.
  - intros _. by rewrite Ascii.eqb_refl.
  - intros Hc. apply orb_false_iff in Hc as [-> Hc]. by rewrite (IH Hc).
Qed.

(** Splitting what was joined gives the list back, for a list that is
    not empty and whose items do not contain the separator. *)
Lemma py_split_join c l :
  l <> [] -> Forall (fun w => has_char c w = false) l ->
  py_split c (py_join (String c EmptyString) l) = l.
Proof.
  intros Hne Hall. induction Hall as [|w l Hw Hl IH]; [done|].
  destruct l as [|w' l'].
  - simpl. by apply py_split_word.
  - change (py_join (String c EmptyString) (w :: w' :: l'))
      with (w +:+ String c (py_join (String c EmptyString) (w' :: l'))).
    rewrite py_split_word_sep by done. by rewrite IH.
Qed.

Lemma py_join_empty_iff c l :
  py_join (String c EmptyString) l = EmptyString <-> l = [] \/ l = [EmptyString].
Proof.
  destruct l as [|x [|y l]]; simpl.
  - split; [by left|done].
  - split; [intros ->; by right|]. intros [?|E]; [done|]. by injection E.
  - split; [|intros [?|?]; done]. destruct x; simpl; discriminate.
Qed.

Lemma truthy_Some s : truthy (Some s) = false <-> s = EmptyString.
Proof. destruct s; simpl; split; congruence. Qed.

Lemma elem_of_str_items s l : s ∈ str_items l <-> PStr s ∈ l.
Proof.
  unfold str_items. rewrite list_elem_of_omap. split.
  - intros [v [Hv Hs]]. destruct v; try discriminate. by injection Hs as ->.
  - intros Hs. exists (PStr s). done.
Qed.

(** A duplicate-free list whose items are all empty strings is empty or
    holds the empty string alone. *)
Lemma all_empty_NoDup (l : list string) :
  NoDup l -> (l = [] \/ l = [EmptyString]) <-> (forall d, d ∈ l -> d = EmptyString).
Proof.
  intros Hnd. split.
  - intros [-> | ->] d Hd; [by apply elem_of_nil in Hd|].
    by apply list_elem_of_singleton in Hd.
  - intros Hall. destruct l as [|x [|y l]]; [by left| |].
    + right. f_equal. apply Hall. left.
    + exfalso. apply NoDup_cons in Hnd as [Hx _]. apply Hx.
      rewrite (Hall x), (Hall y); [left | right; left | left].
Qed.

(** ** Skipping the OSD configuration *)

Lemma elem_of_selected_disks s d :
  d ∈ selected_disks (Some s) <-> d ∈ py_split "," s /\ d <> EmptyString.
Proof. unfold selected_disks. rewrite list_elem_of_filter. tauto. Qed.

Section SetIteration.
Context `{Python}.

Lemma elem_of_set_iter (D : gset string) d : d ∈ set_iter D <-> d ∈ D.
Proof. rewrite (set_iter_perm D). apply elem_of_elements. Qed.

Lemma NoDup_set_iter (D : gset string) : NoDup (set_iter D).
Proof. rewrite (set_iter_perm D). apply NoDup_elements. Qed.

(** The disks left to add: what [is_skip] joins back into [self.disks]. *)
Lemma elem_of_disks_to_add s osd d :
  d ∈ set_iter (list_to_set (py_split "," s) ∖ list_to_set (str_items osd)) <->
  d ∈ py_split "," s /\ PStr d ∉ osd.
Proof.
  rewrite elem_of_set_iter, elem_of_difference, !elem_of_list_to_set.
  by rewrite elem_of_str_items.
Qed.

Lemma remaining_empty_iff s osd :
  py_join "," (set_iter (list_to_set (py_split "," s) ∖ list_to_set (str_items osd)))
    = EmptyString <->
  (forall d, d ∈ selected_disks (Some s) -> PStr d ∈ osd).
Proof.
  rewrite py_join_empty_iff, (all_empty_NoDup _ (NoDup_set_iter _)).
  split.
  - intros Hall d Hd. apply elem_of_selected_disks in Hd as [Hd Hne].
    destruct (decide (d ∈ str_items osd)) as [Hin|Hout];
      [by apply elem_of_str_items|].
    destruct Hne. apply Hall. apply elem_of_disks_to_add.
    split; [done|]. by rewrite <- elem_of_str_items.
  - intros Hall d Hd. apply elem_of_disks_to_add in Hd as [Hd Hout].
    destruct (decide (d = EmptyString)) as [|Hne]; [done|].
    destruct Hout. apply Hall. by apply elem_of_selected_disks.
Qed.

End SetIteration.

Lemma osd_is_skip_nothing_selected `{Python} (self : ConfigureMicrocephOSDStep.t) :
  truthy (ConfigureMicrocephOSDStep.disks self) = false ->
  ConfigureMicrocephOSDStep.is_skip self = Return (Result1 SKIPPED, self).
Proof.
  unfold ConfigureMicrocephOSDStep.is_skip.
  by destruct (ConfigureMicrocephOSDStep.disks self) as [[|a s]|].
Qed.

Lemma osd_is_skip_selected `{Python} (self : ConfigureMicrocephOSDStep.t) s :
  ConfigureMicrocephOSDStep.disks self = Some s -> s <> EmptyString ->
  forallb hashable (ConfigureMicrocephOSDStep.osd_disks self) = true ->
  let remaining :=
    py_join "," (set_iter (list_to_set (py_split "," s)
                   ∖ list_to_set (str_items (ConfigureMicrocephOSDStep.osd_disks self)))) in
  ConfigureMicrocephOSDStep.is_skip self =
    Return (Result1 (if truthy (Some remaining) then COMPLETED else SKIPPED),
            ConfigureMicrocephOSDStep.set_disks self (Some remaining)).
Proof.
  intros Hd Hs Hhash remaining. unfold ConfigureMicrocephOSDStep.is_skip.
  rewrite Hd. destruct s as [|a s]; [done|].
  unfold check_hashable. rewrite Hhash. cbn [mbind outcome_bind].
  fold remaining. by destruct (truthy (Some remaining)).
Qed.

(** C4: [ConfigureMicrocephOSDStep.is_skip] returns SKIPPED exactly when
    the selected disk string is empty (or [None]) or every selected disk
    already appears in the unit's OSD disk list, and COMPLETED otherwise,
    never FAILED; after COMPLETED the pending disks are the selected disks
    not already added.  The disks of a selection are its non-empty
    comma-separated entries; the OSD paths are hashable values, as [set]
    requires. *)
Theorem osd_is_skip_exactly_when_nothing_to_add `{Python}
    (self : ConfigureMicrocephOSDStep.t) :
  forallb hashable (ConfigureMicrocephOSDStep.osd_disks self) = true ->
  exists r self',
    ConfigureMicrocephOSDStep.is_skip self = Return (r, self') /\
    message r = None /\
    (result_type r = SKIPPED \/ result_type r = COMPLETED) /\
    (result_type r = SKIPPED <->
       truthy (ConfigureMicrocephOSDStep.disks self) = false \/
       forall d, d ∈ selected_disks (ConfigureMicrocephOSDStep.disks self) ->
                 PStr d ∈ ConfigureMicrocephOSDStep.osd_disks self) /\
    (result_type r = COMPLETED ->
       forall d, d ∈ selected_disks (ConfigureMicrocephOSDStep.disks self') <->
                 d ∈ selected_disks (ConfigureMicrocephOSDStep.disks self) /\
                 PStr d ∉ ConfigureMicrocephOSDStep.osd_disks self).
Proof.
  intros Hhash.
  destruct (truthy (ConfigureMicrocephOSDStep.disks self)) eqn:Htruthy.
  2:{ exists (Result1 SKIPPED), self.
      rewrite osd_is_skip_nothing_selected by done. simpl.
      repeat split; auto; discriminate. }
  destruct (ConfigureMicrocephOSDStep.disks self) as [s|] eqn:Hd; [|done].
  assert (Hs : s <> EmptyString) by (intros ->; done).
  rewrite (osd_is_skip_selected self s Hd Hs Hhash). cbv zeta.
  set (osd := ConfigureMicrocephOSDStep.osd_disks self).
  set (todo := set_iter (list_to_set (py_split "," s) ∖ list_to_set (str_items osd))).
  pose proof (remaining_empty_iff s osd) as Hempty. fold todo in Hempty.
  eexists _, _. split; [reflexivity|]. cbn [message result_type Result1].
  destruct (truthy (Some (py_join "," todo))) eqn:Ht.
  - (* something is left to add *)
    assert (Hne : py_join "," todo <> EmptyString)
      by (intros E; apply truthy_Some in E; congruence).
    assert (Hsplit : py_split "," (py_join "," todo) = todo).
    { apply py_split_join.
      - intros E. rewrite E in Hne. done.
      - apply Forall_forall. intros w Hw.
        apply elem_of_disks_to_add in Hw as [Hw _].
        by apply py_split_entries in Hw. }
    split; [done|]. split; [by right|]. split.
    + split; [discriminate|]. intros [?|Hall]; [discriminate|].
      by apply Hempty in Hall.
    + intros _ d. cbn [ConfigureMicrocephOSDStep.set_disks
                        ConfigureMicrocephOSDStep.set_answers
                        ConfigureMicrocephOSDStep.disks].
      rewrite !elem_of_selected_disks, Hsplit. unfold todo.
      rewrite elem_of_disks_to_add. tauto.
  - (* nothing is left *)
    apply truthy_Some in Ht. split; [done|]. split; [by left|]. split.
    + split; [|done]. intros _. right. by apply Hempty.
    + discriminate.
Qed.

Lemma osd_is_skip_exactly_when_nothing_to_add_witness :
  forallb hashable (ConfigureMicrocephOSDStep.osd_disks second_call) = true /\
  exists r self',
    ConfigureMicrocephOSDStep.is_skip (H := fragment) second_call = Return (r, self') /\
    message r = None /\
    (result_type r = SKIPPED \/ result_type r = COMPLETED) /\
    (result_type r = SKIPPED <->
       truthy (ConfigureMicrocephOSDStep.disks second_call) = false \/
       forall d, d ∈ selected_disks (ConfigureMicrocephOSDStep.disks second_call) ->
                 PStr d ∈ ConfigureMicrocephOSDStep.osd_disks second_call) /\
    (result_type r = COMPLETED ->
       forall d, d ∈ selected_disks (ConfigureMicrocephOSDStep.disks self') <->
                 d ∈ selected_disks (ConfigureMicrocephOSDStep.disks second_call) /\
                 PStr d ∉ ConfigureMicrocephOSDStep.osd_disks second_call).
Proof.
  split; [reflexivity|].
  apply (osd_is_skip_exactly_when_nothing_to_add (H := fragment) second_call).
  reflexivity.
Defined.

(** The second call with the disk already present is skipped. *)
Example second_call_is_skipped :
  ConfigureMicrocephOSDStep.is_skip (H := fragment) second_call
    = Return (Result1 SKIPPED,
              ConfigureMicrocephOSDStep.set_disks second_call (Some EmptyString)).
Proof. vm_compute. reflexivity. Qed.

(** ** Failures of [add-osd] *)

Lemma scan_results_represented results its :
  Forall2 represents results its ->
  forall failed,
    ConfigureMicrocephOSDStep.scan_results results failed
      = Return (failed || existsb fatal its).
Proof.
  induction 1 as [|v it results its [d [-> [Hst Hmsg]]] _ IH]; intros failed; simpl.
  - by rewrite orb_false_r.
  - rewrite Hst, Hmsg. simpl. unfold fatal.
    destruct (String.eqb (item_status it) "failure"); simpl; [|apply IH].
    destruct (str_contains "entry already exists" (item_message it)); simpl;
      rewrite IH; [done|]. by rewrite orb_true_r.
Qed.

Lemma osd_run_result `{Python} (self : ConfigureMicrocephOSDStep.t) :
  snd (ConfigureMicrocephOSDStep.run self) =
    match run_raises self with
    | None => Return (Result1 COMPLETED)
    | Some (UnitNotFoundException m) =>
        Return (Result2 FAILED (adding_failed self (UnitNotFoundException m)))
    | Some (ActionFailedException text) =>
        match results ← ConfigureMicrocephOSDStep.parse_results text;
              ConfigureMicrocephOSDStep.scan_results results false with
        | Return false => Return (Result1 COMPLETED)
        | _ => Return (Result2 FAILED (adding_failed self (ActionFailedException text)))
        end
    | Some e => Raise e
    end.
Proof.
  unfold ConfigureMicrocephOSDStep.run, run_raises, adding_failed.
  destruct (get_unit_from_machine _ _ _ _) as [unit|e]; simpl.
  - destruct (run_action _ _ _ _ _) as [res|e]; simpl; [done|]. by destruct e.
  - by destruct e.
Qed.

(** C5: when [run] receives an [ActionFailedException] whose text parses
    into a list of per-item results, it returns FAILED if some item with
    status "failure" has a message that does not contain "entry already
    exists", and COMPLETED when every failing item's message contains it;
    a text that does not parse yields FAILED. *)
Theorem add_osd_failure_is_classified_per_item `{Python}
    (self : ConfigureMicrocephOSDStep.t) (text : string) :
  run_raises self = Some (ActionFailedException text) ->
  (forall results its,
      ConfigureMicrocephOSDStep.parse_results text = Return results ->
      Forall2 represents results its ->
      snd (ConfigureMicrocephOSDStep.run self) =
        Return (if existsb fatal its
                then Result2 FAILED (adding_failed self (ActionFailedException text))
                else Result1 COMPLETED)) /\
  (forall e,
      ConfigureMicrocephOSDStep.parse_results text = Raise e ->
      snd (ConfigureMicrocephOSDStep.run self) =
        Return (Result2 FAILED (adding_failed self (ActionFailedException text)))).
Proof.
  intros Hraise. rewrite osd_run_result, Hraise. split.
  - intros results its -> Hits. cbn [mbind outcome_bind].
    rewrite (scan_results_represented _ _ Hits). simpl.
    by destruct (existsb fatal its).
  - by intros e ->.
Qed.

Lemma add_osd_failure_is_classified_per_item_witness :
  run_raises (add_osd_fails (payload duplicate_and_busy) "/dev/sdb,/dev/sdc")
    = Some (ActionFailedException (payload duplicate_and_busy)) /\
  snd (ConfigureMicrocephOSDStep.run (H := fragment)
         (add_osd_fails (payload duplicate_and_busy) "/dev/sdb,/dev/sdc")) =
    Return (Result2 FAILED
              (adding_failed (add_osd_fails (payload duplicate_and_busy) "/dev/sdb,/dev/sdc")
                 (ActionFailedException (payload duplicate_and_busy)))).
Proof.
  split; [reflexivity|].
  apply (proj1 (add_osd_failure_is_classified_per_item (H := fragment)
                  (add_osd_fails (payload duplicate_and_busy) "/dev/sdb,/dev/sdc")
                  (payload duplicate_and_busy) eq_refl)
           [duplicate_item; busy_item] [duplicate_result; busy_result]).
  - vm_compute. reflexivity.
  - repeat constructor; eexists; repeat split.
Defined.

(** Duplicates alone are benign. *)
Example duplicates_alone_complete :
  snd (ConfigureMicrocephOSDStep.run (H := fragment)
         (add_osd_fails (payload duplicate_only) "/dev/sdb"))
    = Return (Result1 COMPLETED).
Proof. vm_compute. reflexivity. Qed.

(** ** Messages of FAILED results *)

Lemma pool_size_run_result `{Python} (self : SetCephMgrPoolSizeStep.t) (r : Result) :
  snd (SetCephMgrPoolSizeStep.run self) = Return r ->
  r = Result1 COMPLETED \/
  r = Result2 FAILED ("ERROR: Failed to update pool size for " +:+ SetCephMgrPoolSizeStep.str_pools) \/
  exists e, r = Result2 FAILED (exn_str e) /\
            (get_leader_unit (SetCephMgrPoolSizeStep.jhelper self) APPLICATION
               (SetCephMgrPoolSizeStep.model self) = Raise e \/
             exists unit params,
               run_action (SetCephMgrPoolSizeStep.jhelper self) unit
                 (SetCephMgrPoolSizeStep.model self) "set-pool-size" params = Raise e).
Proof.
  unfold SetCephMgrPoolSizeStep.run.
  destruct (get_leader_unit _ _ _) as [unit|e] eqn:El; simpl.
  - destruct (run_action _ _ _ _ _) as [res|e] eqn:Ea; simpl.
    + destruct (res !! "status"); simpl; intros [= <-]; auto.
    + intros Hr. right; right. exists e. split; [|right; eauto].
      destruct e; simpl in Hr; first [discriminate | by injection Hr].
  - intros Hr. right; right. exists e. split; [|by left].
    destruct e; simpl in Hr; first [discriminate | by injection Hr].
Qed.

(** C8, as the code has it: a FAILED result of
    [ConfigureMicrocephOSDStep.run] always carries a non-empty message; a
    FAILED result of [SetCephMgrPoolSizeStep.run] carries a non-empty
    message whenever the exceptions of the Juju helper carry a non-empty
    text, which the step passes on verbatim; the results that are not
    FAILED carry no message. *)
Theorem failed_run_results_carry_a_message `{Python}
    (osd : ConfigureMicrocephOSDStep.t) (pool : SetCephMgrPoolSizeStep.t) :
  raises_with_text (SetCephMgrPoolSizeStep.jhelper pool) ->
  (forall r, snd (ConfigureMicrocephOSDStep.run osd) = Return r ->
     (result_type r = FAILED -> has_message r) /\
     (result_type r <> FAILED -> message r = None)) /\
  (forall r, snd (SetCephMgrPoolSizeStep.run pool) = Return r ->
     (result_type r = FAILED -> has_message r) /\
     (result_type r <> FAILED -> message r = None)).
Proof.
  intros [Hleader Haction].
  assert (Hadd : forall e, has_message (Result2 FAILED (adding_failed osd e)))
    by (intros e; eexists; split; [reflexivity|]; unfold adding_failed; simpl; discriminate).
  assert (Hcompleted : (result_type (Result1 COMPLETED) = FAILED -> has_message (Result1 COMPLETED))
                       /\ (result_type (Result1 COMPLETED) <> FAILED ->
                           message (Result1 COMPLETED) = None))
    by (split; [discriminate | reflexivity]).
  assert (Hfailed : forall m, has_message (Result2 FAILED m) ->
             (result_type (Result2 FAILED m) = FAILED -> has_message (Result2 FAILED m))
             /\ (result_type (Result2 FAILED m) <> FAILED -> message (Result2 FAILED m) = None))
    by (intros m Hm; split; [done | intros Hne; by destruct Hne]).
  split.
  - intros r. rewrite osd_run_result.
    destruct (run_raises osd) as [e|]; [|intros [= <-]; exact Hcompleted].
    destruct e; try discriminate.
    + intros [= <-]. apply Hfailed, Hadd.
    + destruct (_ ≫= _) as [[|]|]; intros [= <-];
        first [exact Hcompleted | apply Hfailed, Hadd].
  - intros r Hr. apply pool_size_run_result in Hr as [->|[->|[e [-> He]]]].
    + exact Hcompleted.
    + apply Hfailed. eexists. split; [reflexivity|]. simpl. discriminate.
    + apply Hfailed. eexists. split; [reflexivity|].
      destruct He as [He|[unit [params He]]]; eauto.
Qed.

Lemma failed_run_results_carry_a_message_witness :
  raises_with_text (SetCephMgrPoolSizeStep.jhelper (leader_missing "Leader is missing")) /\
  (forall r, snd (ConfigureMicrocephOSDStep.run (H := fragment)
                    (add_osd_fails "timed out" "/dev/sdb")) = Return r ->
     (result_type r = FAILED -> has_message r) /\
     (result_type r <> FAILED -> message r = None)) /\
  (forall r, snd (SetCephMgrPoolSizeStep.run (H := fragment)
                    (leader_missing "Leader is missing")) = Return r ->
     (result_type r = FAILED -> has_message r) /\
     (result_type r <> FAILED -> message r = None)).
Proof.
  assert (Htext : raises_with_text
                    (SetCephMgrPoolSizeStep.jhelper (leader_missing "Leader is missing"))).
  { split; simpl.
    - intros _ _ e Hraise. injection Hraise as <-. simpl. discriminate.
    - intros _ _ _ _ e Hraise. discriminate. }
  split; [exact Htext|].
  exact (failed_run_results_carry_a_message (H := fragment)
           (add_osd_fails "timed out" "/dev/sdb") (leader_missing "Leader is missing") Htext).
Defined.

(** The claim as stated fails: with a leader lookup that raises an
    exception of empty text, [run] returns a FAILED result whose message
    is the empty string. *)
Lemma pool_size_failed_with_empty_message :
  snd (SetCephMgrPoolSizeStep.run (H := fragment) (leader_missing EmptyString))
    = Return (Result2 FAILED EmptyString) /\
  result_type (Result2 FAILED EmptyString) = FAILED /\
  ~ has_message (Result2 FAILED EmptyString).
Proof.
  split; [reflexivity|]. split; [reflexivity|].
  intros [m [Hm Hne]]. simpl in Hm. congruence.
Qed.

(** ** Lookup failures of the OSD step *)

Lemma osd_is_skip_never_failed `{Python} (self self' : ConfigureMicrocephOSDStep.t) r :
  ConfigureMicrocephOSDStep.is_skip self = Return (r, self') ->
  r = Result1 SKIPPED \/ r = Result1 COMPLETED.
Proof.
  unfold ConfigureMicrocephOSDStep.is_skip.
  destruct (ConfigureMicrocephOSDStep.disks self) as [[|a s]|].
  - intros [= <- _]. by left.
  - destruct (check_hashable _); cbn [mbind outcome_bind]; [|discriminate].
    destruct (negb _); intros [= <- _]; auto.
  - intros [= <- _]. by left.
Qed.

Lemma get_all_disks_lookup_failure `{Python} (self : ConfigureMicrocephOSDStep.t) node e :
  get_node_info (ConfigureMicrocephOSDStep.client self)
    (ConfigureMicrocephOSDStep.node_name self) = Return node ->
  disk_lookup self node = Raise e ->
  known_lookup_failure e = true ->
  ConfigureMicrocephOSDStep.get_all_disks self = Raise (ClickException "Unable to list disks").
Proof.
  intros Hnode Hlookup Hknown.
  unfold ConfigureMicrocephOSDStep.get_all_disks, disk_lookup in *.
  rewrite Hnode. cbn [mbind outcome_bind].
  destruct (get_unit_from_machine _ _ _ _) as [unit|e1]; cbn [mbind outcome_bind] in *.
  - unfold list_disks. rewrite Hlookup. cbn [mbind outcome_bind].
    by destruct e.
  - injection Hlookup as ->. by destruct e.
Qed.

(** C6, as the code has it: the lookups are made by [get_all_disks],
    called from [prompt].  When the unit cannot be found or the
    [list-disks] action fails (a [UnitNotFoundException] or an
    [ActionFailedException]), [get_all_disks], and [prompt] with it, raise
    [ClickException("Unable to list disks")]; [is_skip] makes no lookup
    and returns SKIPPED or COMPLETED, never FAILED. *)
Theorem osd_lookup_failure_raises_click_exception `{Python}
    (bank : QuestionBank) (store : gmap string (gmap string jval))
    (self : ConfigureMicrocephOSDStep.t) (node : Node) (e : exn) :
  get_node_info (ConfigureMicrocephOSDStep.client self)
    (ConfigureMicrocephOSDStep.node_name self) = Return node ->
  disk_lookup self node = Raise e ->
  known_lookup_failure e = true ->
  ConfigureMicrocephOSDStep.get_all_disks self
    = Raise (ClickException "Unable to list disks") /\
  ConfigureMicrocephOSDStep.prompt bank store self
    = Raise (ClickException "Unable to list disks") /\
  (forall s r s',
      ConfigureMicrocephOSDStep.is_skip s = Return (r, s') -> result_type r <> FAILED).
Proof.
  intros Hnode Hlookup Hknown.
  pose proof (get_all_disks_lookup_failure self node e Hnode Hlookup Hknown) as Hget.
  split; [done|]. split.
  - unfold ConfigureMicrocephOSDStep.prompt. by rewrite Hget.
  - intros s r s' Hskip. by apply osd_is_skip_never_failed in Hskip as [->| ->].
Qed.

Lemma osd_lookup_failure_raises_click_exception_witness :
  ConfigureMicrocephOSDStep.get_all_disks (H := fragment) unit_missing
    = Raise (ClickException "Unable to list disks") /\
  ConfigureMicrocephOSDStep.prompt (H := fragment) default_bank ∅ unit_missing
    = Raise (ClickException "Unable to list disks") /\
  (forall s r s',
      ConfigureMicrocephOSDStep.is_skip (H := fragment) s = Return (r, s') ->
      result_type r <> FAILED).
Proof.
  apply (osd_lookup_failure_raises_click_exception (H := fragment) default_bank ∅
           unit_missing
           {| nd_name := "node-1"; nd_machineid := Some 0; nd_role := ["storage"] |}
           (UnitNotFoundException "Unit is missing on machine 0"));
    reflexivity.
Defined.

(** The claim as stated fails: the unit cannot be found, the exception
    leaves [prompt] as a [ClickException], and [is_skip] on the same step
    returns SKIPPED, not FAILED. *)
Lemma osd_lookup_failure_is_not_a_failed_result :
  disk_lookup unit_missing
    {| nd_name := "node-1"; nd_machineid := Some 0; nd_role := ["storage"] |}
    = Raise (UnitNotFoundException "Unit is missing on machine 0") /\
  ConfigureMicrocephOSDStep.prompt (H := fragment) default_bank ∅ unit_missing
    = Raise (ClickException "Unable to list disks") /\
  ConfigureMicrocephOSDStep.is_skip (H := fragment) unit_missing
    = Return (Result1 SKIPPED, unit_missing).
Proof. repeat split. Qed.

(** ** The prompt persists the answer *)

Lemma bind_Return {A B} (c : outcome A) (k : A -> outcome B) (b : B) :
  (c ≫= k) = Return b -> exists a, c = Return a /\ k a = Return b.
Proof. destruct c as [a|e]; [eauto|discriminate]. Qed.

Lemma nested_setitem_lookup d k1 k2 k3 v d' :
  nested_setitem d k1 k2 k3 v = Return d' ->
  exists m1 m2,
    d' !! k1 = Some (JDict m1) /\ m1 !! k2 = Some (JDict m2) /\ m2 !! k3 = Some v.
Proof.
  unfold nested_setitem.
  destruct (d !! k1) as [[| | | | |m1]|]; try discriminate.
  destruct (m1 !! k2) as [[| | | | |m2]|]; try discriminate.
  intros [= <-]. eexists _, _. by rewrite !lookup_insert_eq.
Qed.

Lemma get_all_disks_keeps `{Python} (self s1 : ConfigureMicrocephOSDStep.t) :
  ConfigureMicrocephOSDStep.get_all_disks self = Return s1 ->
  ConfigureMicrocephOSDStep.node_name s1 = ConfigureMicrocephOSDStep.node_name self /\
  ConfigureMicrocephOSDStep.accept_defaults s1
    = ConfigureMicrocephOSDStep.accept_defaults self.
Proof.
  unfold ConfigureMicrocephOSDStep.get_all_disks.
  match goal with |- match ?c with _ => _ end = _ -> _ => destruct c as [s|e] eqn:E end.
  - intros [= <-].
    apply bind_Return in E as [node [_ E]].
    apply bind_Return in E as [unit [_ E]].
    apply bind_Return in E as [[osds unpartitioned] [_ E]].
    apply bind_Return in E as [unpartitioned' [_ E]].
    apply bind_Return in E as [unpartitioned_disks [_ E]].
    apply bind_Return in E as [osds' [_ E]].
    apply bind_Return in E as [osd_disks [_ E]].
    by injection E as <-.
  - destruct e; discriminate.
Qed.

(** C9: whenever [ConfigureMicrocephOSDStep.prompt] returns normally, the
    answer resolved for [osd_devices] is the step's disk selection and has
    been written to the answer store under the config group
    [TerraformVarsMicroceph], at [microceph_config][node_name]
    ["osd_devices"], whatever the preseed, the stored answers and the
    accept-defaults flag are. *)
Theorem prompt_writes_answer_back `{Python}
    (bank : QuestionBank) (store store' : gmap string (gmap string jval))
    (self self' : ConfigureMicrocephOSDStep.t) :
  ConfigureMicrocephOSDStep.prompt bank store self = Return (store', self') ->
  exists vars mc nd q node_preseed previous,
    ask bank q node_preseed previous (ConfigureMicrocephOSDStep.accept_defaults self)
      = Return (ConfigureMicrocephOSDStep.disks self') /\
    store' !! "TerraformVarsMicroceph" = Some vars /\
    vars !! "microceph_config" = Some (JDict mc) /\
    mc !! ConfigureMicrocephOSDStep.node_name self = Some (JDict nd) /\
    nd !! "osd_devices" = Some (jval_of_opt (ConfigureMicrocephOSDStep.disks self')).
Proof.
  unfold ConfigureMicrocephOSDStep.prompt. intros Hp.
  apply bind_Return in Hp as [s1 [Hget Hp]].
  apply get_all_disks_keeps in Hget as [Hname Haccept].
  rewrite Hname, Haccept in Hp.
  apply bind_Return in Hp as [vars0 [_ Hp]].
  apply bind_Return in Hp as [pre0 [_ Hp]].
  apply bind_Return in Hp as [node_pre [_ Hp]].
  apply bind_Return in Hp as [osd_devices [_ Hp]].
  apply bind_Return in Hp as [pre1 [_ Hp]].
  apply bind_Return in Hp as [q [_ Hp]].
  apply bind_Return in Hp as [bank_preseed [_ Hp]].
  apply bind_Return in Hp as [previous [_ Hp]].
  apply bind_Return in Hp as [answer [Hask Hp]].
  apply bind_Return in Hp as [vars [Hset Hp]].
  injection Hp as <- <-.
  apply nested_setitem_lookup in Hset as [mc [nd [Hvars [Hmc Hnd]]]].
  exists vars, mc, nd, q, bank_preseed, previous. simpl.
  split; [done|]. split; [|done].
  unfold write_answers, ConfigureMicrocephOSDStep._CONFIG, CONFIG_DISKS_KEY.
  apply lookup_insert_eq.
Qed.

Lemma prompt_writes_answer_back_witness :
  exists store' self',
    ConfigureMicrocephOSDStep.prompt (H := fragment) default_bank ∅ one_free_disk
      = Return (store', self') /\
    ConfigureMicrocephOSDStep.disks self' = Some "/dev/sdb" /\
    exists vars mc nd q node_preseed previous,
      ask default_bank q node_preseed previous
        (ConfigureMicrocephOSDStep.accept_defaults one_free_disk)
        = Return (ConfigureMicrocephOSDStep.disks self') /\
      store' !! "TerraformVarsMicroceph" = Some vars /\
      vars !! "microceph_config" = Some (JDict mc) /\
      mc !! ConfigureMicrocephOSDStep.node_name one_free_disk = Some (JDict nd) /\
      nd !! "osd_devices" = Some (jval_of_opt (ConfigureMicrocephOSDStep.disks self')).
Proof.
  eexists _, _. split; [reflexivity|]. split; [reflexivity|].
  apply (prompt_writes_answer_back (H := fragment) default_bank ∅).
  reflexivity.
Defined.

(** * Further properties of the code *)

(** ** Replica scale *)

(** X1: for a non-negative number of storage nodes the replica scale is
    never more than the number of nodes, never more than 3, zero only for
    zero nodes, monotone in the number of nodes, and scaling twice changes
    nothing. *)
Theorem ceph_replica_scale_bounds (n m : Z) :
  0 <= n -> n <= m ->
  0 <= ceph_replica_scale n <= 3 /\
  ceph_replica_scale n <= n /\
  ceph_replica_scale n <= ceph_replica_scale m /\
  (ceph_replica_scale n = 0 <-> n = 0) /\
  ceph_replica_scale (ceph_replica_scale n) = ceph_replica_scale n.
Proof.
  intros Hn Hm. unfold ceph_replica_scale, py_min.
  repeat match goal with
         | |- context [?a <? ?b] =>
             let E := fresh "E" in
             destruct (a <? b) eqn:E; [apply Z.ltb_lt in E | apply Z.ltb_ge in E]
         end; lia.
Qed.

Lemma ceph_replica_scale_bounds_witness :
  0 <= ceph_replica_scale 2 <= 3 /\
  ceph_replica_scale 2 <= 2 /\
  ceph_replica_scale 2 <= ceph_replica_scale 7 /\
  (ceph_replica_scale 2 = 0 <-> 2 = 0) /\
  ceph_replica_scale (ceph_replica_scale 2) = ceph_replica_scale 2.
Proof. apply (ceph_replica_scale_bounds 2 7); lia. Defined.

(** ** Terraform variables of the MicroCeph deployment *)

(** X2: [extra_tfvars] passes an offer URL on exactly when the openstack
    plan outputs a truthy value for it (a missing, null or empty output
    leaves the variable out), always carries the endpoint bindings and the
    charm configuration, and sets no other variable. *)
Theorem extra_tfvars_offer_urls (self : DeployMicrocephApplicationStep.t) :
  let out := output (get_tfhelper (DeployMicrocephApplicationStep.deployment self)
                       "openstack-plan") in
  let tfvars := DeployMicrocephApplicationStep.extra_tfvars self in
  let passed_on (key : string) :=
    match out !! key with
    | Some v => if jtruthy v then Some v else None
    | None => None
    end in
  tfvars !! "keystone-endpoints-offer-url" = passed_on "keystone-endpoints-offer-url" /\
  tfvars !! "ingress-rgw-offer-url" = passed_on "ingress-rgw-offer-url" /\
  is_Some (tfvars !! "endpoint_bindings") /\
  is_Some (tfvars !! "charm_microceph_config") /\
  (forall key, is_Some (tfvars !! key) ->
     key ∈ ["endpoint_bindings"; "charm_microceph_config";
            "keystone-endpoints-offer-url"; "ingress-rgw-offer-url"]).
Proof.
  intros out tfvars passed_on.
  assert (Hpass : forall key,
             passed_on key = if jtruthy (default JNull (out !! key))
                             then Some (default JNull (out !! key)) else None).
  { intros key. unfold passed_on. by destruct (out !! key). }
  rewrite !Hpass. clear Hpass.
  unfold tfvars, DeployMicrocephApplicationStep.extra_tfvars. fold out.
  generalize (default JNull (out !! "keystone-endpoints-offer-url")).
  generalize (default JNull (out !! "ingress-rgw-offer-url")).
  intros i k. cbv zeta.
  destruct (jtruthy k), (jtruthy i), (negb (len _ =? 0));
    (split; [|split; [|split; [|split]]];
     [ by simplify_map_eq | by simplify_map_eq
     | by simplify_map_eq | by simplify_map_eq
     | intros key [v Hv];
       repeat (apply lookup_insert_Some in Hv as [[<- _]|[_ Hv]]; [set_solver|]);
       apply lookup_singleton_Some in Hv as [<- _]; set_solver ]).
Qed.

(** ** Listing the disks of a unit *)

Lemma get_all_disks_attempt `{Python} (self : ConfigureMicrocephOSDStep.t) :
  (exists self', ConfigureMicrocephOSDStep.get_all_disks self = Return self') \/
  (exists e, ConfigureMicrocephOSDStep.get_all_disks self = Raise e /\
             known_lookup_failure e = false).
Proof.
  unfold ConfigureMicrocephOSDStep.get_all_disks.
  match goal with |- context [match ?c with _ => _ end] => destruct c as [s|e] end.
  - left. eauto.
  - right. destruct e; eauto.
Qed.

(** X3: [get_all_disks] never lets a [UnitNotFoundException] or an
    [ActionFailedException] out, whichever collaborator call raises it:
    what it raises is of another class. *)
Theorem get_all_disks_hides_lookup_exceptions `{Python}
    (self : ConfigureMicrocephOSDStep.t) (e : exn) :
  ConfigureMicrocephOSDStep.get_all_disks self = Raise e ->
  known_lookup_failure e = false.
Proof.
  intros He. destruct (get_all_disks_attempt self) as [[s Hs]|[e' [He' Hk]]].
  - congruence.
  - rewrite He in He'. by injection He' as ->.
Qed.

Lemma get_all_disks_hides_lookup_exceptions_witness :
  ConfigureMicrocephOSDStep.get_all_disks (H := fragment) unit_missing
    = Raise (ClickException "Unable to list disks") /\
  known_lookup_failure (ClickException "Unable to list disks") = false.
Proof.
  split; [reflexivity|].
  apply (get_all_disks_hides_lookup_exceptions (H := fragment) unit_missing).
  reflexivity.
Defined.

(** X4: when the node lookup itself fails, [get_all_disks] makes no
    further call: an exception of any class but the two it names leaves it
    unchanged (a node missing from the cluster database is not turned into
    "Unable to list disks"). *)
Theorem get_all_disks_node_lookup_failure `{Python}
    (self : ConfigureMicrocephOSDStep.t) (e : exn) :
  get_node_info (ConfigureMicrocephOSDStep.client self)
    (ConfigureMicrocephOSDStep.node_name self) = Raise e ->
  known_lookup_failure e = false ->
  ConfigureMicrocephOSDStep.get_all_disks self = Raise e.
Proof.
  intros Hnode Hk. unfold ConfigureMicrocephOSDStep.get_all_disks.
  rewrite Hnode. cbn [mbind outcome_bind]. by destruct e.
Qed.

(** An OSD step for a node the cluster database does not know. *)
Lemma get_all_disks_node_lookup_failure_witness :
  ConfigureMicrocephOSDStep.get_all_disks (H := fragment) second_call
    = Raise (OtherException "NodeNotExistInClusterException" "no such node").
Proof.
  apply (get_all_disks_node_lookup_failure (H := fragment) second_call); reflexivity.
Defined.

Lemma get_all_disks_inv `{Python} (self self' : ConfigureMicrocephOSDStep.t) :
  ConfigureMicrocephOSDStep.get_all_disks self = Return self' ->
  exists node unit osds unpartitioned osd_items unpartitioned_items,
    get_node_info (ConfigureMicrocephOSDStep.client self)
      (ConfigureMicrocephOSDStep.node_name self) = Return node /\
    get_unit_from_machine (ConfigureMicrocephOSDStep.jhelper self) APPLICATION
      (str_machineid node) (ConfigureMicrocephOSDStep.model self) = Return unit /\
    list_disks (ConfigureMicrocephOSDStep.jhelper self)
      (ConfigureMicrocephOSDStep.model self) (entity_id unit)
      = Return (osds, unpartitioned) /\
    py_iter unpartitioned = Return unpartitioned_items /\
    py_iter osds = Return osd_items /\
    paths_of unpartitioned_items
      = Return (ConfigureMicrocephOSDStep.unpartitioned_disks self') /\
    paths_of osd_items = Return (ConfigureMicrocephOSDStep.osd_disks self') /\
    self' = ConfigureMicrocephOSDStep.set_disk_lists self (str_machineid node)
              (ConfigureMicrocephOSDStep.osd_disks self')
              (ConfigureMicrocephOSDStep.unpartitioned_disks self').
Proof.
  unfold ConfigureMicrocephOSDStep.get_all_disks.
  match goal with |- match ?c with _ => _ end = _ -> _ => destruct c as [s|e] eqn:E end.
  - intros [= <-].
    apply bind_Return in E as [node [Hnode E]].
    apply bind_Return in E as [unit [Hunit E]].
    apply bind_Return in E as [[osds unpartitioned] [Hlist E]].
    apply bind_Return in E as [unpartitioned_items [Hu E]].
    apply bind_Return in E as [unpartitioned_disks [Hup E]].
    apply bind_Return in E as [osd_items [Ho E]].
    apply bind_Return in E as [osd_disks [Hop E]].
    injection E as <-. simpl. eexists _, _, _, _, _, _. eauto 10.
  - destruct e; discriminate.
Qed.

Lemma paths_of_length disks paths : paths_of disks = Return paths -> length paths = length disks.
Proof.
  revert paths. induction disks as [|d disks IH]; simpl; intros paths Hp.
  - by injection Hp as <-.
  - apply bind_Return in Hp as [p [_ Hp]].
    apply bind_Return in Hp as [ps [Hps Hp]].
    injection Hp as <-. simpl. by rewrite (IH ps).
Qed.

Lemma paths_of_dicts disks paths :
  paths_of disks = Return paths ->
  Forall2 (fun disk path => exists items, disk = PDict items /\ path = items_get items "path")
          disks paths.
Proof.
  revert paths. induction disks as [|d disks IH]; simpl; intros paths Hp.
  - injection Hp as <-. constructor.
  - apply bind_Return in Hp as [p [Hd Hp]].
    apply bind_Return in Hp as [ps [Hps Hp]].
    injection Hp as <-. constructor; [|by apply IH].
    destruct d; try discriminate. injection Hd as <-. eauto.
Qed.

(** X5: when [get_all_disks] succeeds it changes the machine id and the
    two disk lists and nothing else (the selection, the preseed and the
    answers are kept); the machine id is [str] of the node's [machineid],
    and each list holds, for every disk the unit reported, the [path]
    entry of that disk, or [None] for a disk without one. *)
Theorem get_all_disks_result `{Python} (self self' : ConfigureMicrocephOSDStep.t) :
  ConfigureMicrocephOSDStep.get_all_disks self = Return self' ->
  exists node unit osds unpartitioned osd_items unpartitioned_items,
    get_node_info (ConfigureMicrocephOSDStep.client self)
      (ConfigureMicrocephOSDStep.node_name self) = Return node /\
    self' = ConfigureMicrocephOSDStep.set_disk_lists self (str_machineid node)
              (ConfigureMicrocephOSDStep.osd_disks self')
              (ConfigureMicrocephOSDStep.unpartitioned_disks self') /\
    list_disks (ConfigureMicrocephOSDStep.jhelper self)
      (ConfigureMicrocephOSDStep.model self) (entity_id unit)
      = Return (osds, unpartitioned) /\
    py_iter osds = Return osd_items /\
    py_iter unpartitioned = Return unpartitioned_items /\
    Forall2 (fun disk path => exists items, disk = PDict items /\ path = items_get items "path")
      osd_items (ConfigureMicrocephOSDStep.osd_disks self') /\
    Forall2 (fun disk path => exists items, disk = PDict items /\ path = items_get items "path")
      unpartitioned_items (ConfigureMicrocephOSDStep.unpartitioned_disks self').
Proof.
  intros Hget.
  apply get_all_disks_inv in Hget
    as (node & unit & osds & unp & oi & ui & Hn & Hu & Hl & Hiu & Hio & Hpu & Hpo & Hs).
  exists node, unit, osds, unp, oi, ui.
  repeat split; try done; by apply paths_of_dicts.
Qed.

Lemma get_all_disks_result_witness :
  exists self',
    ConfigureMicrocephOSDStep.get_all_disks (H := fragment) one_free_disk = Return self' /\
    ConfigureMicrocephOSDStep.unpartitioned_disks self' = [PStr "/dev/sdb"] /\
    exists node unit osds unpartitioned osd_items unpartitioned_items,
      get_node_info (ConfigureMicrocephOSDStep.client one_free_disk)
        (ConfigureMicrocephOSDStep.node_name one_free_disk) = Return node /\
      self' = ConfigureMicrocephOSDStep.set_disk_lists one_free_disk (str_machineid node)
                (ConfigureMicrocephOSDStep.osd_disks self')
                (ConfigureMicrocephOSDStep.unpartitioned_disks self') /\
      list_disks (H := fragment) (ConfigureMicrocephOSDStep.jhelper one_free_disk)
        (ConfigureMicrocephOSDStep.model one_free_disk) (entity_id unit)
        = Return (osds, unpartitioned) /\
      py_iter osds = Return osd_items /\
      py_iter unpartitioned = Return unpartitioned_items /\
      Forall2 (fun disk path => exists items, disk = PDict items /\ path = items_get items "path")
        osd_items (ConfigureMicrocephOSDStep.osd_disks self') /\
      Forall2 (fun disk path => exists items, disk = PDict items /\ path = items_get items "path")
        unpartitioned_items (ConfigureMicrocephOSDStep.unpartitioned_disks self').
Proof.
  eexists. split; [reflexivity|]. split; [reflexivity|].
  apply (get_all_disks_result (H := fragment) one_free_disk). reflexivity.
Defined.

(** X6: a missing key in the result of [list-disks] reads as an empty
    list.  With a unit whose result has neither ["osds"] nor
    ["unpartitioned-disks"], [get_all_disks] succeeds with two empty lists
    and the question is then asked without a default. *)
Theorem get_all_disks_without_keys `{Python}
    (self : ConfigureMicrocephOSDStep.t) (node : Node) (unit : Unit)
    (result : gmap string string) :
  literal_eval_str "[]" = Return (PList []) ->
  get_node_info (ConfigureMicrocephOSDStep.client self)
    (ConfigureMicrocephOSDStep.node_name self) = Return node ->
  get_unit_from_machine (ConfigureMicrocephOSDStep.jhelper self) APPLICATION
    (str_machineid node) (ConfigureMicrocephOSDStep.model self) = Return unit ->
  run_action (ConfigureMicrocephOSDStep.jhelper self) (entity_id unit)
    (ConfigureMicrocephOSDStep.model self) "list-disks" None = Return result ->
  result !! "osds" = None ->
  result !! "unpartitioned-disks" = None ->
  ConfigureMicrocephOSDStep.get_all_disks self
    = Return (ConfigureMicrocephOSDStep.set_disk_lists self (str_machineid node) [] []) /\
  ConfigureMicrocephOSDStep.microceph_config_questions
    (ConfigureMicrocephOSDStep.set_disk_lists self (str_machineid node) [] [])
    = Return {| question := "Disks to attach to MicroCeph (comma separated list)";
                default_value := None |}.
Proof.
  intros Hlit Hnode Hunit Haction Hosds Hunp. split; [|reflexivity].
  unfold ConfigureMicrocephOSDStep.get_all_disks, list_disks.
  rewrite Hnode. cbn [mbind outcome_bind]. rewrite Hunit. cbn [mbind outcome_bind].
  rewrite Haction. cbn [mbind outcome_bind]. rewrite Hosds, Hunp.
  cbn [default from_option literal_eval]. rewrite Hlit. reflexivity.
Qed.

(** An OSD step on a node whose unit reports nothing. *)
Lemma get_all_disks_without_keys_witness :
  ConfigureMicrocephOSDStep.get_all_disks (H := fragment)
    (ConfigureMicrocephOSDStep.init any_node "node-1"
       (ConfigureMicrocephOSDStep.jhelper second_call) "controller" None false)
    = Return (ConfigureMicrocephOSDStep.set_disk_lists
                (ConfigureMicrocephOSDStep.init any_node "node-1"
                   (ConfigureMicrocephOSDStep.jhelper second_call) "controller" None false)
                "0" [] []) /\
  ConfigureMicrocephOSDStep.microceph_config_questions
    (ConfigureMicrocephOSDStep.set_disk_lists
       (ConfigureMicrocephOSDStep.init any_node "node-1"
          (ConfigureMicrocephOSDStep.jhelper second_call) "controller" None false)
       "0" [] [])
    = Return {| question := "Disks to attach to MicroCeph (comma separated list)";
                default_value := None |}.
Proof.
  apply (get_all_disks_without_keys (H := fragment)
           (ConfigureMicrocephOSDStep.init any_node "node-1"
              (ConfigureMicrocephOSDStep.jhelper second_call) "controller" None false)
           {| nd_name := "node-1"; nd_machineid := Some 0; nd_role := ["storage"] |}
           {| entity_id := "microceph/0" |} ∅); reflexivity.
Defined.

(** ** The default of the disk question *)

Lemma strs_of_strings (ps : list string) : strs_of (PStr <$> ps) = Return ps.
Proof.
  induction ps as [|p ps IH]; [done|].
  rewrite fmap_cons. cbn [strs_of as_str mbind outcome_bind].
  rewrite IH. reflexivity.
Qed.

Lemma strs_of_not_string (l : list pyval) :
  (exists v, v ∈ l /\ forall s, v <> PStr s) ->
  strs_of l = Raise (TypeError "sequence item: expected str instance").
Proof.
  intros [v [Hv Hns]]. induction l as [|x l IH]; [by apply elem_of_nil in Hv|].
  simpl. destruct x; try reflexivity.
  apply elem_of_cons in Hv as [->|Hv]; [by destruct (Hns s)|].
  simpl. by rewrite (IH Hv).
Qed.

(** X7: when the unit reports unpartitioned disks whose paths are strings,
    the default of the question is the paths joined by commas, and the
    disks this default selects are exactly the unpartitioned disks, in
    order (for paths that are not empty and hold no comma). *)
Theorem default_selects_the_unpartitioned_disks
    (self : ConfigureMicrocephOSDStep.t) (paths : list string) :
  ConfigureMicrocephOSDStep.unpartitioned_disks self = PStr <$> paths ->
  paths <> [] ->
  Forall (fun p => has_char "," p = false /\ p <> EmptyString) paths ->
  exists q,
    ConfigureMicrocephOSDStep.microceph_config_questions self = Return q /\
    default_value q = Some (py_join "," paths) /\
    selected_disks (default_value q) = paths.
Proof.
  intros Hu Hne Hall.
  unfold ConfigureMicrocephOSDStep.microceph_config_questions, py_join_vals.
  rewrite Hu, strs_of_strings.
  assert (Hlen : (0 <? len (PStr <$> paths)) = true).
  { apply Z.ltb_lt. unfold len. destruct paths; [done|]. simpl. lia. }
  rewrite Hlen. cbn [mbind outcome_bind]. eexists. split; [reflexivity|].
  cbn [default_value]. split; [done|].
  unfold selected_disks. rewrite py_split_join; [|done|].
  - clear Hne Hu Hlen. induction Hall as [|p ps [_ Hp] _ IH]; [done|].
    rewrite filter_cons_True by done. by rewrite IH.
  - eapply Forall_impl; [exact Hall|]. by intros p [Hp _].
Qed.

(** An OSD step that has listed two unpartitioned disks. *)
Lemma default_selects_the_unpartitioned_disks_witness :
  exists q,
    ConfigureMicrocephOSDStep.microceph_config_questions
      (ConfigureMicrocephOSDStep.set_disk_lists second_call "0" []
         [PStr "/dev/sdb"; PStr "/dev/sdc"]) = Return q /\
    default_value q = Some (py_join "," ["/dev/sdb"; "/dev/sdc"]) /\
    selected_disks (default_value q) = ["/dev/sdb"; "/dev/sdc"].
Proof.
  apply (default_selects_the_unpartitioned_disks
           (ConfigureMicrocephOSDStep.set_disk_lists second_call "0" []
              [PStr "/dev/sdb"; PStr "/dev/sdc"])
           ["/dev/sdb"; "/dev/sdc"]).
  - reflexivity.
  - discriminate.
  - repeat constructor; discriminate.
Defined.

(** X8: a reported unpartitioned disk whose path is not a string (a disk
    without a [path] entry gives [None]) makes
    [microceph_config_questions] raise [TypeError] from the join of the
    default. *)
Theorem default_needs_string_paths (self : ConfigureMicrocephOSDStep.t) (v : pyval) :
  v ∈ ConfigureMicrocephOSDStep.unpartitioned_disks self ->
  (forall s, v <> PStr s) ->
  ConfigureMicrocephOSDStep.microceph_config_questions self
    = Raise (TypeError "sequence item: expected str instance").
Proof.
  intros Hv Hns.
  unfold ConfigureMicrocephOSDStep.microceph_config_questions, py_join_vals.
  assert (Hlen : (0 <? len (ConfigureMicrocephOSDStep.unpartitioned_disks self)) = true).
  { apply Z.ltb_lt. unfold len.
    destruct (ConfigureMicrocephOSDStep.unpartitioned_disks self);
      [by apply elem_of_nil in Hv|]. simpl. lia. }
  rewrite Hlen, strs_of_not_string by eauto. reflexivity.
Qed.

Lemma default_needs_string_paths_witness :
  ConfigureMicrocephOSDStep.microceph_config_questions
    (ConfigureMicrocephOSDStep.set_disk_lists second_call "0" [] [PStr "/dev/sdb"; PNone])
    = Raise (TypeError "sequence item: expected str instance").
Proof.
  apply (default_needs_string_paths
           (ConfigureMicrocephOSDStep.set_disk_lists second_call "0" []
              [PStr "/dev/sdb"; PNone]) PNone).
  - simpl. right. left.
  - discriminate.
Defined.

(** ** What the prompt reads and writes *)

Lemma nested_setdefault_inv d k1 k2 v d' :
  nested_setdefault d k1 k2 v = Return d' ->
  exists m, d !! k1 = Some (JDict m) /\ d' = <[k1 := JDict (setdefault m k2 v)]> d.
Proof.
  unfold nested_setdefault.
  destruct (d !! k1) as [[| | | | |m]|]; try discriminate.
  intros [= <-]. eauto.
Qed.

Lemma nested_setitem_inv d k1 k2 k3 v d' :
  nested_setitem d k1 k2 k3 v = Return d' ->
  exists m1 m2,
    d !! k1 = Some (JDict m1) /\ m1 !! k2 = Some (JDict m2) /\
    d' = <[k1 := JDict (<[k2 := JDict (<[k3 := v]> m2)]> m1)]> d.
Proof.
  unfold nested_setitem.
  destruct (d !! k1) as [[| | | | |m1]|]; try discriminate.
  destruct (m1 !! k2) as [[| | | | |m2]|] eqn:E2; try discriminate.
  intros [= <-]. by exists m1, m2.
Qed.

Lemma setdefault_lookup (d : gmap string jval) k v :
  setdefault d k v !! k = Some (default v (d !! k)).
Proof.
  unfold setdefault. destruct (d !! k) as [x|] eqn:E; simpl; [done|].
  apply lookup_insert_eq.
Qed.

Lemma setdefault_lookup_ne (d : gmap string jval) k k' v :
  k <> k' -> setdefault d k v !! k' = d !! k'.
Proof.
  intros Hne. unfold setdefault. destruct (d !! k); [done|].
  by apply lookup_insert_ne.
Qed.

(** The steps of [prompt], for a call that returns: the disks are listed,
    the stored answers of the group hold a dict [mc] under
    ["microceph_config"] (the empty one when nothing is stored) and in it a
    dict [nd] for the node (the default one when the node is new); the
    bank is asked with the default of the question, the node's entry of
    the final preseed and [nd]; the answer replaces ["osd_devices"] in
    [nd], and the group is written back. *)
Lemma prompt_inv `{Python} (bank : QuestionBank)
    (store store' : gmap string (gmap string jval))
    (self self' : ConfigureMicrocephOSDStep.t) :
  ConfigureMicrocephOSDStep.prompt bank store self = Return (store', self') ->
  let name := ConfigureMicrocephOSDStep.node_name self in
  let loaded := load_answers store "TerraformVarsMicroceph" in
  exists s1 mc nd q bp,
    ConfigureMicrocephOSDStep.get_all_disks self = Return s1 /\
    default (JDict ∅) (loaded !! "microceph_config") = JDict mc /\
    default (JDict {[ "osd_devices" := JNull ]}) (mc !! name) = JDict nd /\
    ConfigureMicrocephOSDStep.microceph_config_questions s1 = Return q /\
    jget (default (JDict ∅) (ConfigureMicrocephOSDStep.preseed self' !! "microceph_config"))
      name = Return bp /\
    ask bank q bp (JDict nd) (ConfigureMicrocephOSDStep.accept_defaults self)
      = Return (ConfigureMicrocephOSDStep.disks self') /\
    ConfigureMicrocephOSDStep.variables self' =
      <["microceph_config" :=
          JDict (<[name := JDict (<["osd_devices" :=
                                      jval_of_opt (ConfigureMicrocephOSDStep.disks self')]> nd)]>
                   mc)]> loaded /\
    store' = <["TerraformVarsMicroceph" := ConfigureMicrocephOSDStep.variables self']> store /\
    self' = ConfigureMicrocephOSDStep.set_answers s1
              (ConfigureMicrocephOSDStep.variables self')
              (ConfigureMicrocephOSDStep.preseed self')
              (ConfigureMicrocephOSDStep.disks self').
Proof.
  intros Hp name loaded. unfold ConfigureMicrocephOSDStep.prompt in Hp.
  apply bind_Return in Hp as [s1 [Hget Hp]].
  destruct (get_all_disks_keeps _ _ Hget) as [Hname Haccept].
  rewrite Hname, Haccept in Hp. fold name in Hp.
  unfold ConfigureMicrocephOSDStep._CONFIG, CONFIG_DISKS_KEY in Hp. fold loaded in Hp.
  apply bind_Return in Hp as [vars0 [Hv0 Hp]].
  apply bind_Return in Hp as [pre0 [_ Hp]].
  apply bind_Return in Hp as [node_pre [_ Hp]].
  apply bind_Return in Hp as [osd_devices [_ Hp]].
  apply bind_Return in Hp as [pre1 [_ Hp]].
  apply bind_Return in Hp as [q [Hq Hp]].
  apply bind_Return in Hp as [bp [Hbp Hp]].
  apply bind_Return in Hp as [prev [Hprev Hp]].
  apply bind_Return in Hp as [answer [Hask Hp]].
  apply bind_Return in Hp as [vars [Hset Hp]].
  injection Hp as <- <-.
  apply nested_setdefault_inv in Hv0 as [mc [Hmc ->]].
  rewrite setdefault_lookup in Hmc. injection Hmc as Hmc.
  rewrite lookup_insert_eq in Hprev. cbn [default from_option id] in Hprev.
  unfold jget, jget_or in Hprev. rewrite setdefault_lookup in Hprev.
  cbn [default from_option id] in Hprev. injection Hprev as <-.
  apply nested_setitem_inv in Hset as [m1 [nd [Hm1 [Hnd ->]]]].
  rewrite lookup_insert_eq in Hm1. injection Hm1 as <-.
  rewrite setdefault_lookup in Hnd. injection Hnd as Hnd.
  exists s1, mc, nd, q, bp. cbn.
  split; [done|]. split; [done|]. split; [done|]. split; [done|].
  split; [done|]. split; [by rewrite <- Hnd|]. split; [|done].
  rewrite insert_insert_eq.
  apply map_eq. intros k. destruct (decide (k = "microceph_config")) as [->|Hk].
  - rewrite !lookup_insert_eq. do 2 f_equal.
    apply map_eq. intros n. destruct (decide (n = name)) as [->|Hn].
    + by rewrite !lookup_insert_eq.
    + rewrite !lookup_insert_ne by done. by apply setdefault_lookup_ne.
  - rewrite !lookup_insert_ne by done. by apply setdefault_lookup_ne.
Qed.

(** X9: a prompt that returns touches nothing but the node's own
    ["osd_devices"] answer: the other config groups of the store, the
    other entries of the group, the answers of the other nodes and the
    other answers of this node are as they were stored. *)
Theorem prompt_keeps_the_other_answers `{Python} (bank : QuestionBank)
    (store store' : gmap string (gmap string jval))
    (self self' : ConfigureMicrocephOSDStep.t) :
  ConfigureMicrocephOSDStep.prompt bank store self = Return (store', self') ->
  let name := ConfigureMicrocephOSDStep.node_name self in
  (forall group, group <> "TerraformVarsMicroceph" -> store' !! group = store !! group) /\
  exists vars' mc' nd',
    store' !! "TerraformVarsMicroceph" = Some vars' /\
    vars' !! "microceph_config" = Some (JDict mc') /\
    mc' !! name = Some (JDict nd') /\
    (forall key, key <> "microceph_config" ->
       vars' !! key = load_answers store "TerraformVarsMicroceph" !! key) /\
    (forall mc other,
       load_answers store "TerraformVarsMicroceph" !! "microceph_config" = Some (JDict mc) ->
       other <> name -> mc' !! other = mc !! other) /\
    (forall mc nd key,
       load_answers store "TerraformVarsMicroceph" !! "microceph_config" = Some (JDict mc) ->
       mc !! name = Some (JDict nd) ->
       key <> "osd_devices" -> nd' !! key = nd !! key).
Proof.
  intros Hp name.
  destruct (prompt_inv _ _ _ _ _ Hp)
    as (s1 & mc0 & nd0 & q & bp & _ & Hmc0 & Hnd0 & _ & _ & _ & Hvars & -> & _).
  fold name in Hnd0, Hvars. split.
  - intros group Hg. by rewrite lookup_insert_ne.
  - eexists _, _, _. rewrite lookup_insert_eq, Hvars, !lookup_insert_eq.
    split; [done|]. split; [done|]. split; [done|]. split; [|split].
    + intros key Hk. by rewrite lookup_insert_ne.
    + intros mc other Hmc Ho. rewrite Hmc in Hmc0. injection Hmc0 as ->.
      by rewrite lookup_insert_ne.
    + intros mc nd key Hmc Hnd Hk. rewrite Hmc in Hmc0. injection Hmc0 as ->.
      rewrite Hnd in Hnd0. injection Hnd0 as ->. by rewrite lookup_insert_ne.
Qed.

(** X10: a store that has no answers for the group is no error.  The
    bank is then asked with the previous answers [{"osd_devices": None}],
    and if the prompt returns, the group holds exactly the node's answer. *)
Theorem prompt_on_a_store_without_the_group `{Python} (bank : QuestionBank)
    (store store' : gmap string (gmap string jval))
    (self self' : ConfigureMicrocephOSDStep.t) :
  store !! "TerraformVarsMicroceph" = None ->
  ConfigureMicrocephOSDStep.prompt bank store self = Return (store', self') ->
  store' !! "TerraformVarsMicroceph" =
    Some {[ "microceph_config" :=
              JDict {[ ConfigureMicrocephOSDStep.node_name self :=
                         JDict {[ "osd_devices" :=
                                    jval_of_opt (ConfigureMicrocephOSDStep.disks self') ]} ]} ]} /\
  exists q node_preseed,
    ask bank q node_preseed (JDict {[ "osd_devices" := JNull ]})
      (ConfigureMicrocephOSDStep.accept_defaults self)
      = Return (ConfigureMicrocephOSDStep.disks self').
Proof.
  intros Hnone Hp.
  destruct (prompt_inv _ _ _ _ _ Hp)
    as (s1 & mc0 & nd0 & q & bp & _ & Hmc0 & Hnd0 & _ & _ & Hask & Hvars & -> & _).
  unfold load_answers in *. rewrite Hnone in *. cbn [default from_option id] in *.
  rewrite lookup_empty in Hmc0. cbn in Hmc0. injection Hmc0 as <-.
  rewrite lookup_empty in Hnd0. cbn in Hnd0. injection Hnd0 as <-.
  split; [|eauto].
  rewrite lookup_insert_eq, Hvars. f_equal.
Qed.

Lemma prompt_keeps_the_other_answers_witness :
  exists store' self',
    ConfigureMicrocephOSDStep.prompt (H := fragment) default_bank two_node_store one_free_disk
      = Return (store', self') /\
    (forall group, group <> "TerraformVarsMicroceph" ->
       store' !! group = two_node_store !! group) /\
    exists vars' mc' nd',
      store' !! "TerraformVarsMicroceph" = Some vars' /\
      vars' !! "microceph_config" = Some (JDict mc') /\
      mc' !! "node-1" = Some (JDict nd') /\
      (forall key, key <> "microceph_config" ->
         vars' !! key = load_answers two_node_store "TerraformVarsMicroceph" !! key) /\
      (forall mc other,
         load_answers two_node_store "TerraformVarsMicroceph" !! "microceph_config"
           = Some (JDict mc) ->
         other <> "node-1" -> mc' !! other = mc !! other) /\
      (forall mc nd key,
         load_answers two_node_store "TerraformVarsMicroceph" !! "microceph_config"
           = Some (JDict mc) ->
         mc !! "node-1" = Some (JDict nd) ->
         key <> "osd_devices" -> nd' !! key = nd !! key).
Proof.
  eexists _, _. split; [reflexivity|].
  eapply (prompt_keeps_the_other_answers (H := fragment) default_bank two_node_store _
            one_free_disk).
  reflexivity.
Defined.

Lemma prompt_on_a_store_without_the_group_witness :
  exists store' self',
    ConfigureMicrocephOSDStep.prompt (H := fragment) default_bank ∅ one_free_disk
      = Return (store', self') /\
    store' !! "TerraformVarsMicroceph" =
      Some {[ "microceph_config" :=
                JDict {[ "node-1" :=
                           JDict {[ "osd_devices" :=
                                      jval_of_opt (ConfigureMicrocephOSDStep.disks self') ]} ]} ]} /\
    exists q node_preseed,
      ask default_bank q node_preseed (JDict {[ "osd_devices" := JNull ]}) true
        = Return (ConfigureMicrocephOSDStep.disks self').
Proof.
  eexists _, _. split; [reflexivity|].
  apply (prompt_on_a_store_without_the_group (H := fragment) default_bank ∅ _ one_free_disk);
    reflexivity.
Defined.

Lemma get_all_disks_keeps_preseed `{Python} (self s1 : ConfigureMicrocephOSDStep.t) :
  ConfigureMicrocephOSDStep.get_all_disks self = Return s1 ->
  ConfigureMicrocephOSDStep.preseed s1 = ConfigureMicrocephOSDStep.preseed self.
Proof.
  intros Hget. apply get_all_disks_inv in Hget
    as (node & unit & osds & unp & oi & ui & _ & _ & _ & _ & _ & _ & _ & ->).
  reflexivity.
Qed.

(** X11: a preseed that gives the node's ["osd_devices"] as a list is
    turned into the comma separated string before the bank is asked: if
    the prompt returns, the list held strings only and the bank was asked
    with the node's preseed entry in which the list is replaced by the
    joined string. *)
Theorem prompt_joins_a_preseeded_list `{Python} (bank : QuestionBank)
    (store store' : gmap string (gmap string jval))
    (self self' : ConfigureMicrocephOSDStep.t)
    (mc nd : gmap string jval) (l : list jval) :
  ConfigureMicrocephOSDStep.prompt bank store self = Return (store', self') ->
  ConfigureMicrocephOSDStep.preseed self !! "microceph_config" = Some (JDict mc) ->
  mc !! ConfigureMicrocephOSDStep.node_name self = Some (JDict nd) ->
  nd !! "osd_devices" = Some (JList l) ->
  exists ss q previous,
    jstrs_of l = Return ss /\
    ask bank q (JDict (<["osd_devices" := JStr (py_join "," ss)]> nd)) previous
      (ConfigureMicrocephOSDStep.accept_defaults self)
      = Return (ConfigureMicrocephOSDStep.disks self').
Proof.
  intros Hp Hmc Hnd Hl. unfold ConfigureMicrocephOSDStep.prompt in Hp.
  apply bind_Return in Hp as [s1 [Hget Hp]].
  destruct (get_all_disks_keeps _ _ Hget) as [Hname Haccept].
  rewrite Hname, Haccept, (get_all_disks_keeps_preseed _ _ Hget) in Hp.
  apply bind_Return in Hp as [vars0 [_ Hp]].
  apply bind_Return in Hp as [pre0 [Hpre0 Hp]].
  apply nested_setdefault_inv in Hpre0 as [mc0 [Hmc0 ->]].
  rewrite setdefault_lookup, Hmc in Hmc0. injection Hmc0 as <-.
  rewrite lookup_insert_eq in Hp. cbn [default from_option id] in Hp.
  unfold jget, jget_or in Hp.
  rewrite setdefault_lookup, Hnd in Hp. cbn [default from_option id mbind outcome_bind] in Hp.
  rewrite Hl in Hp. cbn [default from_option id mbind outcome_bind] in Hp.
  apply bind_Return in Hp as [pre1 [Hpre1 Hp]].
  apply bind_Return in Hpre1 as [ss [Hss Hpre1]].
  apply nested_setitem_inv in Hpre1 as [m1 [m2 [Hm1 [Hm2 ->]]]].
  rewrite lookup_insert_eq in Hm1. injection Hm1 as <-.
  rewrite setdefault_lookup, Hnd in Hm2. injection Hm2 as <-.
  rewrite lookup_insert_eq in Hp. cbn [default from_option id] in Hp.
  rewrite lookup_insert_eq in Hp. cbn [default from_option id] in Hp.
  apply bind_Return in Hp as [q [_ Hp]].
  cbn [mbind outcome_bind] in Hp.
  apply bind_Return in Hp as [previous [_ Hp]].
  apply bind_Return in Hp as [answer [Hask Hp]].
  apply bind_Return in Hp as [vars [_ Hp]].
  injection Hp as <- <-. exists ss, q, previous. split; [done|]. exact Hask.
Qed.

Lemma prompt_joins_a_preseeded_list_witness :
  exists store' self',
    ConfigureMicrocephOSDStep.prompt (H := fragment) preseed_bank ∅ preseeded_with_a_list
      = Return (store', self') /\
    ConfigureMicrocephOSDStep.disks self' = Some "/dev/sdb,/dev/sdc" /\
    exists ss q previous,
      jstrs_of [JStr "/dev/sdb"; JStr "/dev/sdc"] = Return ss /\
      ask preseed_bank q
        (JDict (<["osd_devices" := JStr (py_join "," ss)]>
                  {[ "osd_devices" := JList [JStr "/dev/sdb"; JStr "/dev/sdc"] ]}))
        previous false
        = Return (ConfigureMicrocephOSDStep.disks self').
Proof.
  eexists _, _. split; [reflexivity|]. split; [reflexivity|].
  eapply (prompt_joins_a_preseeded_list (H := fragment) preseed_bank ∅ _
           preseeded_with_a_list _
           {[ "node-1" := JDict {[ "osd_devices" := JList [JStr "/dev/sdb"; JStr "/dev/sdc"] ]} ]}
           {[ "osd_devices" := JList [JStr "/dev/sdb"; JStr "/dev/sdc"] ]}
           [JStr "/dev/sdb"; JStr "/dev/sdc"]); reflexivity.
Defined.

(** ** More on skipping the OSD configuration *)




(** X13: [is_skip] raises in one case only: a non-empty selection while an
    OSD path is not hashable (a list, a set or a dict), and then it is the
    [TypeError] of [set].  With an empty selection it returns whatever the
    OSD paths are. *)
Theorem osd_is_skip_raises_iff `{Python} (self : ConfigureMicrocephOSDStep.t) (e : exn) :
  ConfigureMicrocephOSDStep.is_skip self = Raise e <->
  truthy (ConfigureMicrocephOSDStep.disks self) = true /\
  forallb hashable (ConfigureMicrocephOSDStep.osd_disks self) = false /\
  e = TypeError "unhashable type".
Proof.
  unfold ConfigureMicrocephOSDStep.is_skip, check_hashable.
  destruct (ConfigureMicrocephOSDStep.disks self) as [[|a s]|]; cbn [truthy].
  - split; [discriminate|]. by intros [? _].
  - destruct (forallb hashable _); cbn [mbind outcome_bind].
    + split; [by destruct (negb _)|]. by intros [_ [? _]].
    + split; [intros [= <-]; done|]. by intros [_ [_ ->]].
  - split; [discriminate|]. by intros [? _].
Qed.

(** ** More on running the OSD configuration *)

(** X14: the only exceptions [ConfigureMicrocephOSDStep.run] lets out are
    those its [try] body meets that are neither [UnitNotFoundException]
    nor [ActionFailedException]; these two are always turned into a
    result. *)
Theorem osd_run_escapes_iff `{Python} (self : ConfigureMicrocephOSDStep.t) (e : exn) :
  snd (ConfigureMicrocephOSDStep.run self) = Raise e <->
  run_raises self = Some e /\ known_lookup_failure e = false.
Proof.
  rewrite osd_run_result.
  destruct (run_raises self) as [e'|].
  - destruct e'; cbn [known_lookup_failure];
      try (split; [intros [= <-]; done | intros [[= <-] _]; done]).
    + split; [discriminate|]. by intros [[= <-] ?].
    + split; [by destruct (_ ≫= _) as [[|]|]|]. by intros [[= <-] ?].
  - split; [discriminate|]. by intros [? _].
Qed.

(** X15: [run] issues at most one remote action: [add-osd] on the unit of
    the machine with the step's disk string as [device-id], and none when
    the unit lookup raises.  After an [is_skip] that returned COMPLETED the
    disks it sends are selected disks that are not OSDs yet. *)
Theorem osd_run_adds_only_new_disks `{Python}
    (self self' : ConfigureMicrocephOSDStep.t) (r : Result) :
  ConfigureMicrocephOSDStep.is_skip self = Return (r, self') ->
  result_type r = COMPLETED ->
  exists sent,
    ConfigureMicrocephOSDStep.disks self' = Some sent /\
    (forall d, d ∈ selected_disks (Some sent) ->
       d ∈ selected_disks (ConfigureMicrocephOSDStep.disks self) /\
       PStr d ∉ ConfigureMicrocephOSDStep.osd_disks self) /\
    fst (ConfigureMicrocephOSDStep.run self') =
      match get_unit_from_machine (ConfigureMicrocephOSDStep.jhelper self) APPLICATION
              (ConfigureMicrocephOSDStep.machine_id self)
              (ConfigureMicrocephOSDStep.model self) with
      | Return unit =>
          [{| call_unit := entity_id unit;
              call_model := ConfigureMicrocephOSDStep.model self;
              call_action := "add-osd";
              call_params := Some {[ "device-id" := JStr sent ]} |}]
      | Raise _ => []
      end.
Proof.
  intros Hskip Hr.
  destruct (truthy (ConfigureMicrocephOSDStep.disks self)) eqn:Htruthy.
  2:{ rewrite osd_is_skip_nothing_selected in Hskip by done.
      injection Hskip as <- <-. discriminate. }
  destruct (ConfigureMicrocephOSDStep.disks self) as [s|] eqn:Hd; [|done].
  assert (Hs : s <> EmptyString) by (intros ->; done).
  destruct (forallb hashable (ConfigureMicrocephOSDStep.osd_disks self)) eqn:Hhash.
  2:{ unfold ConfigureMicrocephOSDStep.is_skip, check_hashable in Hskip.
      rewrite Hd, Hhash in Hskip. by destruct s. }
  rewrite (osd_is_skip_selected self s Hd Hs Hhash) in Hskip. cbv zeta in Hskip.
  set (osd := ConfigureMicrocephOSDStep.osd_disks self) in *.
  set (todo := set_iter (list_to_set (py_split "," s) ∖ list_to_set (str_items osd))) in *.
  destruct (truthy (Some (py_join "," todo))) eqn:Ht; injection Hskip as <- <-;
    [|discriminate].
  assert (Hne : py_join "," todo <> EmptyString)
    by (intros E; apply truthy_Some in E; congruence).
  assert (Hsplit : py_split "," (py_join "," todo) = todo).
  { apply py_split_join.
    - intros E. rewrite E in Hne. done.
    - apply Forall_forall. intros w Hw.
      apply elem_of_disks_to_add in Hw as [Hw _].
      by apply py_split_entries in Hw. }
  exists (py_join "," todo). split; [reflexivity|]. split.
  - intros d Hsel. apply elem_of_selected_disks in Hsel as [Hin Hdne].
    rewrite Hsplit in Hin. apply elem_of_disks_to_add in Hin as [Hin Hout].
    split; [|done]. by apply elem_of_selected_disks.
  - unfold ConfigureMicrocephOSDStep.run.
    cbn [ConfigureMicrocephOSDStep.set_disks ConfigureMicrocephOSDStep.set_answers
         ConfigureMicrocephOSDStep.jhelper ConfigureMicrocephOSDStep.machine_id
         ConfigureMicrocephOSDStep.model ConfigureMicrocephOSDStep.disks].
    destruct (get_unit_from_machine _ _ _ _) as [unit|e]; [|done].
    by destruct (run_action _ _ _ _ _).
Qed.

Lemma osd_run_adds_only_new_disks_witness :
  exists r self' sent,
    ConfigureMicrocephOSDStep.is_skip (H := fragment)
      (ConfigureMicrocephOSDStep.set_disks second_call (Some "/dev/sdb,/dev/sdc"))
      = Return (r, self') /\
    result_type r = COMPLETED /\
    ConfigureMicrocephOSDStep.disks self' = Some sent /\
    fst (ConfigureMicrocephOSDStep.run (H := fragment) self') =
      [{| call_unit := "microceph/0"; call_model := "controller";
          call_action := "add-osd";
          call_params := Some {[ "device-id" := JStr sent ]} |}].
Proof.
  destruct (osd_run_adds_only_new_disks (H := fragment)
              (ConfigureMicrocephOSDStep.set_disks second_call (Some "/dev/sdb,/dev/sdc"))
              (ConfigureMicrocephOSDStep.set_disks second_call (Some "/dev/sdc"))
              (Result1 COMPLETED))
    as [sent [Hsent [_ Hcalls]]]; [vm_compute; reflexivity | reflexivity |].
  exists (Result1 COMPLETED),
         (ConfigureMicrocephOSDStep.set_disks second_call (Some "/dev/sdc")), sent.
  split; [vm_compute; reflexivity|]. split; [reflexivity|]. split; [exact Hsent|].
  exact Hcalls.
Defined.

Lemma scan_results_cons (x : pyval) (l : list pyval) (failed : bool) :
  ConfigureMicrocephOSDStep.scan_results (x :: l) failed =
    failed' ← ConfigureMicrocephOSDStep.scan_results [x] failed;
    ConfigureMicrocephOSDStep.scan_results l failed'.
Proof.
  cbn [ConfigureMicrocephOSDStep.scan_results].
  destruct (py_get x "status") as [status|e]; [|done]. cbn [mbind outcome_bind].
  destruct (eq_str status "failure"); [|done].
  destruct (py_get x "message") as [msg|e]; [|done]. cbn [mbind outcome_bind].
  destruct (py_in "entry already exists" msg) as [[|]|e]; [|done|done].
  cbn [mbind outcome_bind]. by destruct (py_get x "spec").
Qed.

(** What one item does to [failed]: it raises or not whatever [failed] is,
    and it never resets it. *)
Lemma scan_results_single (x : pyval) (failed : bool) :
  ConfigureMicrocephOSDStep.scan_results [x] failed =
    failed' ← ConfigureMicrocephOSDStep.scan_results [x] false;
    Return (failed || failed').
Proof.
  cbn [ConfigureMicrocephOSDStep.scan_results].
  destruct (py_get x "status") as [status|e]; [|done]. cbn [mbind outcome_bind].
  destruct (eq_str status "failure"); [|simpl; by rewrite orb_false_r].
  destruct (py_get x "message") as [msg|e]; [|done]. cbn [mbind outcome_bind].
  destruct (py_in "entry already exists" msg) as [[|]|e];
    [|simpl; by rewrite orb_true_r|done].
  cbn [mbind outcome_bind]. destruct (py_get x "spec"); [|done].
  simpl. by rewrite orb_false_r.
Qed.

Lemma scan_results_benign (items : list pyval) (failed : bool) :
  ConfigureMicrocephOSDStep.scan_results items failed = Return false <->
  failed = false /\
  Forall (fun item => ConfigureMicrocephOSDStep.scan_results [item] false = Return false) items.
Proof.
  revert failed. induction items as [|x l IH]; intros failed.
  - simpl. split; [intros [= ->]; by split | by intros [-> _]].
  - rewrite scan_results_cons, scan_results_single.
    destruct (ConfigureMicrocephOSDStep.scan_results [x] false) as [b|e] eqn:Ex;
      cbn [mbind outcome_bind].
    + rewrite IH. split.
      * intros [Hb Hl]. apply orb_false_iff in Hb as [-> ->]. split; [done|].
        by constructor.
      * intros [-> Hall]. apply Forall_cons in Hall as [Hx Hl].
        rewrite Ex in Hx. injection Hx as ->. by split.
    + split; [discriminate|]. intros [_ Hall]. apply Forall_cons in Hall as [Hx _].
      rewrite Ex in Hx. discriminate.
Qed.

(** X16: after a failed [add-osd] whose text parses into items, [run]
    returns COMPLETED exactly when every item on its own would leave the
    step unfailed, whatever the order of the items and whatever they are;
    in any other case it returns FAILED with the "Adding disks" message. *)
Theorem osd_run_completes_iff_every_item_is_benign `{Python}
    (self : ConfigureMicrocephOSDStep.t) (text : string) (items : list pyval) :
  run_raises self = Some (ActionFailedException text) ->
  ConfigureMicrocephOSDStep.parse_results text = Return items ->
  (snd (ConfigureMicrocephOSDStep.run self) = Return (Result1 COMPLETED) <->
   Forall (fun item => ConfigureMicrocephOSDStep.scan_results [item] false = Return false)
     items) /\
  (snd (ConfigureMicrocephOSDStep.run self) = Return (Result1 COMPLETED) \/
   snd (ConfigureMicrocephOSDStep.run self)
     = Return (Result2 FAILED (adding_failed self (ActionFailedException text)))).
Proof.
  intros Hraise Hparse. rewrite osd_run_result, Hraise, Hparse.
  cbn [mbind outcome_bind].
  pose proof (scan_results_benign items false) as Hb.
  destruct (ConfigureMicrocephOSDStep.scan_results items false) as [[|]|e].
  - split; [|by right]. split; [discriminate|]. intros Hall.
    destruct Hb as [_ Hb]. by specialize (Hb (conj eq_refl Hall)).
  - split; [|by left]. split; [|done]. intros _. by apply Hb.
  - split; [|by right]. split; [discriminate|]. intros Hall.
    destruct Hb as [_ Hb]. by specialize (Hb (conj eq_refl Hall)).
Qed.

Lemma osd_run_completes_iff_every_item_is_benign_witness :
  (snd (ConfigureMicrocephOSDStep.run (H := fragment)
          (add_osd_fails (payload duplicate_only) "/dev/sdb"))
     = Return (Result1 COMPLETED) <->
   Forall (fun item => ConfigureMicrocephOSDStep.scan_results [item] false = Return false)
     [duplicate_item]) /\
  (snd (ConfigureMicrocephOSDStep.run (H := fragment)
          (add_osd_fails (payload duplicate_only) "/dev/sdb"))
     = Return (Result1 COMPLETED) \/
   snd (ConfigureMicrocephOSDStep.run (H := fragment)
          (add_osd_fails (payload duplicate_only) "/dev/sdb"))
     = Return (Result2 FAILED
                 (adding_failed (add_osd_fails (payload duplicate_only) "/dev/sdb")
                    (ActionFailedException (payload duplicate_only))))).
Proof.
  apply (osd_run_completes_iff_every_item_is_benign (H := fragment)
           (add_osd_fails (payload duplicate_only) "/dev/sdb")
           (payload duplicate_only) [duplicate_item]).
  - reflexivity.
  - vm_compute. reflexivity.
Defined.

(** X17: the text of an [ActionFailedException] that evaluates to
    something without a ["result"] entry (a dict lacking the key, or not a
    dict at all) makes [run] return FAILED: the missing entry reads as
    [None], which [ast.literal_eval] rejects. *)
Theorem osd_run_without_result_entry `{Python}
    (self : ConfigureMicrocephOSDStep.t) (text : string) (error : pyval) :
  run_raises self = Some (ActionFailedException text) ->
  literal_eval_str text = Return error ->
  (forall items, error = PDict items -> items_get items "result" = PNone) ->
  snd (ConfigureMicrocephOSDStep.run self)
    = Return (Result2 FAILED (adding_failed self (ActionFailedException text))).
Proof.
  intros Hraise Hlit Hnone. rewrite osd_run_result, Hraise.
  unfold ConfigureMicrocephOSDStep.parse_results. cbn [literal_eval].
  rewrite Hlit. cbn [mbind outcome_bind].
  destruct error; try reflexivity.
  cbn [py_get mbind outcome_bind]. by rewrite (Hnone items eq_refl).
Qed.

Lemma osd_run_without_result_entry_witness :
  snd (ConfigureMicrocephOSDStep.run (H := fragment) (add_osd_fails "[]" "/dev/sdb"))
    = Return (Result2 FAILED
                (adding_failed (add_osd_fails "[]" "/dev/sdb") (ActionFailedException "[]"))).
Proof.
  apply (osd_run_without_result_entry (H := fragment) (add_osd_fails "[]" "/dev/sdb")
           "[]" (PList [])).
  - reflexivity.
  - reflexivity.
  - discriminate.
Defined.

(** ** More on setting the pool size *)



(** ** What the check runners print *)

Section CheckRunnerOutput.
Context `{Python} {D : Type} (to_dict : Maas.DiagnosticsResult -> D).

Lemma run_checks_loop_console checks console acc :
  fst (Maas.run_checks_loop to_dict checks console acc) =
    console ++ flat_map result_lines (checks_before_failure checks).
Proof.
  revert console acc. induction checks as [|c checks IH]; intros console acc; simpl.
  - by rewrite app_nil_r.
  - unfold zero_results. destruct (Maas.falsy (Maas.run c)) eqn:Hf; simpl.
    + by rewrite app_nil_r.
    + rewrite IH. unfold result_lines at 2. by rewrite app_assoc.
Qed.

Lemma run_meta_checks_loop_console checks console acc :
  fst (Maas.run_meta_checks_loop to_dict checks console acc) =
    console ++ flat_map summary_lines (checks_before_failure checks).
Proof.
  revert console acc. induction checks as [|c checks IH]; intros console acc; simpl.
  - by rewrite app_nil_r.
  - unfold zero_results. destruct (Maas.falsy (Maas.run c)) eqn:Hf; simpl.
    + by rewrite app_nil_r.
    + destruct (last_passed_defined _ Hf) as [ok Hok].
      assert (Hline : summary_lines c
                      = [Maas.PrintSummary (Maas.description c +:+ "...") (Maas.mark ok)]).
      { unfold summary_lines. unfold Maas.last_passed in Hok.
        destruct (last (Maas.as_list (Maas.run c))) as [r|]; [|discriminate].
        by injection Hok as ->. }
      rewrite Hok, IH, Hline. by rewrite <- app_assoc.
Qed.

Lemma checks_before_failure_have_results checks :
  Forall (fun c => Maas.as_list (Maas.run c) <> []) (checks_before_failure checks).
Proof.
  induction checks as [|c checks IH]; simpl; [constructor|].
  unfold zero_results. destruct (Maas.falsy (Maas.run c)) eqn:Hf; constructor; [|done].
  intros Hnil. apply falsy_as_list in Hnil. congruence.
Qed.

(** X19: [_run_maas_checks] prints one line per result, in order, for the
    checks it runs: all of them when each has a result, and only those
    before the first check without results when it raises (what was
    printed before the error stays printed). *)
Theorem verbose_runner_prints_every_result (checks : list Maas.DiagnosticsCheck) :
  fst (Maas._run_maas_checks to_dict checks)
    = flat_map result_lines (checks_before_failure checks) /\
  length (fst (Maas._run_maas_checks to_dict checks))
    = length (flat_map (fun c => Maas.as_list (Maas.run c)) (checks_before_failure checks)) /\
  (List.find zero_results checks = None -> checks_before_failure checks = checks).
Proof.
  unfold Maas._run_maas_checks. rewrite run_checks_loop_console. simpl.
  split; [done|]. split.
  - induction (checks_before_failure checks) as [|c l IH]; simpl; [done|].
    rewrite !length_app, IH. unfold result_lines. by rewrite length_fmap.
  - induction checks as [|c checks IH]; simpl; [done|].
    destruct (zero_results c); [discriminate|]. intros Hfind. by rewrite IH.
Qed.

(** X20: [_run_maas_meta_checks] prints exactly one line per check it
    runs, carrying the mark of the last result of that check, whatever the
    results before it are. *)
Theorem meta_runner_prints_one_line_per_check (checks : list Maas.DiagnosticsCheck) :
  fst (Maas._run_maas_meta_checks to_dict checks)
    = flat_map summary_lines (checks_before_failure checks) /\
  length (fst (Maas._run_maas_meta_checks to_dict checks))
    = length (checks_before_failure checks) /\
  Forall2 (fun line c =>
             exists r, last (Maas.as_list (Maas.run c)) = Some r /\
                       line = Maas.PrintSummary (Maas.description c +:+ "...")
                                (Maas.mark (Maas.passed r)))
          (fst (Maas._run_maas_meta_checks to_dict checks))
          (checks_before_failure checks).
Proof.
  unfold Maas._run_maas_meta_checks. rewrite run_meta_checks_loop_console. simpl.
  pose proof (checks_before_failure_have_results checks) as Hres.
  assert (Hlines : Forall2 (fun line c =>
             exists r, last (Maas.as_list (Maas.run c)) = Some r /\
                       line = Maas.PrintSummary (Maas.description c +:+ "...")
                                (Maas.mark (Maas.passed r)))
            (flat_map summary_lines (checks_before_failure checks))
            (checks_before_failure checks)).
  { induction Hres as [|c l Hc Hl IH]; simpl; [constructor|].
    unfold summary_lines at 1.
    destruct (last (Maas.as_list (Maas.run c))) as [r|] eqn:El.
    - simpl. constructor; [eauto|done].
    - apply last_None in El. done. }
  split; [done|]. split; [|done].
  by apply Forall2_length in Hlines.
Qed.

(** X21: the two runners collect the same report: they return the same
    list of result dicts, or raise the same error. *)
Theorem runners_return_the_same_report (checks : list Maas.DiagnosticsCheck) :
  snd (Maas._run_maas_checks to_dict checks)
    = snd (Maas._run_maas_meta_checks to_dict checks).
Proof.
  unfold Maas._run_maas_checks, Maas._run_maas_meta_checks.
  by rewrite run_checks_loop_spec, run_meta_checks_loop_spec.
Qed.

(** A check that returns its one result bare is the check that returns it
    in a list. *)
Lemma run_checks_loop_wrapped checks console acc :
  Maas.run_checks_loop to_dict
    ((fun c => {| Maas.name := Maas.name c; Maas.description := Maas.description c;
                  Maas.run := Maas.ResultList (Maas.as_list (Maas.run c)) |}) <$> checks)
    console acc
  = Maas.run_checks_loop to_dict checks console acc.
Proof.
  revert console acc. induction checks as [|c checks IH]; intros console acc; [done|].
  rewrite fmap_cons. cbn [Maas.run_checks_loop Maas.run Maas.description Maas.as_list].
  rewrite IH. unfold Maas.no_results. cbn [Maas.name].
  by destruct (Maas.run c) as [r|[|r l]].
Qed.

Lemma run_meta_checks_loop_wrapped checks console acc :
  Maas.run_meta_checks_loop to_dict
    ((fun c => {| Maas.name := Maas.name c; Maas.description := Maas.description c;
                  Maas.run := Maas.ResultList (Maas.as_list (Maas.run c)) |}) <$> checks)
    console acc
  = Maas.run_meta_checks_loop to_dict checks console acc.
Proof.
  revert console acc. induction checks as [|c checks IH]; intros console acc; [done|].
  rewrite fmap_cons. cbn [Maas.run_meta_checks_loop Maas.run Maas.description Maas.as_list].
  unfold Maas.no_results. cbn [Maas.name].
  destruct (Maas.run c) as [r|[|r l]]; cbn [Maas.falsy Maas.as_list]; try done.
  - destruct (Maas.last_passed [r]); [apply IH|done].
  - destruct (Maas.last_passed (r :: l)); [apply IH|done].
Qed.

(** X22: a check may return one result bare or in a list, the runners do
    not tell the difference: wrapping every bare result in a list changes
    neither what they print nor what they return. *)
Theorem bare_result_is_a_singleton_list (checks : list Maas.DiagnosticsCheck) :
  let wrapped :=
    (fun c => {| Maas.name := Maas.name c; Maas.description := Maas.description c;
                 Maas.run := Maas.ResultList (Maas.as_list (Maas.run c)) |}) <$> checks in
  Maas._run_maas_checks to_dict wrapped = Maas._run_maas_checks to_dict checks /\
  Maas._run_maas_meta_checks to_dict wrapped = Maas._run_maas_meta_checks to_dict checks.
Proof.
  intros wrapped. unfold Maas._run_maas_checks, Maas._run_maas_meta_checks, wrapped.
  by rewrite run_checks_loop_wrapped, run_meta_checks_loop_wrapped.
Qed.

End CheckRunnerOutput.

(** ** The workers of a deployment *)

Lemma length_elements_list_to_set (l : list string) :
  (length (elements (list_to_set l : gset string)) <= length l)%nat.
Proof.
  apply submseteq_length, NoDup_submseteq; [apply NoDup_elements|].
  intros x Hx. apply elem_of_elements in Hx. by apply elem_of_list_to_set in Hx.
Qed.

(** X23: when the topology gate lets [deploy] go on, the workers it hands
    to the machine plan are the names of the nodes listed under the
    control, compute or storage role, each name once: a node holding
    several roles is one worker, so the number of workers is at most the
    sum of the three counts the gate adds up. *)
Theorem deploy_workers_are_the_distinct_nodes `{Python}
    (client : Client) (workers : list string) :
  snd (Maas.deploy_topology client) = Return workers ->
  NoDup workers /\
  (forall name, name ∈ workers <->
     name ∈ role_names client "control" \/ name ∈ role_names client "compute" \/
     name ∈ role_names client "storage") /\
  len workers <= role_count client "control" + role_count client "compute"
                 + role_count client "storage".
Proof.
  unfold Maas.deploy_topology. cbv zeta. simpl RoleTags.value.
  destruct (_ <? 3); [discriminate|]. cbn [snd]. intros [= <-].
  split; [apply NoDup_set_iter|]. split.
  - intros name. rewrite elem_of_set_iter, elem_of_list_to_set, !elem_of_app.
    unfold role_names, Maas._name_mapper. tauto.
  - unfold len, role_count, len.
    rewrite (Permutation_length (set_iter_perm _)).
    pose proof (length_elements_list_to_set
                  ((Maas._name_mapper <$> list_nodes_by_role client "compute") ++
                   (Maas._name_mapper <$> list_nodes_by_role client "control") ++
                   (Maas._name_mapper <$> list_nodes_by_role client "storage"))) as Hle.
    rewrite !length_app, !length_fmap in Hle. lia.
Qed.

Lemma deploy_workers_are_the_distinct_nodes_witness :
  exists workers,
    snd (Maas.deploy_topology (H := fragment) three_control_nodes) = Return workers /\
    NoDup workers /\
    (forall name, name ∈ workers <->
       name ∈ role_names three_control_nodes "control" \/
       name ∈ role_names three_control_nodes "compute" \/
       name ∈ role_names three_control_nodes "storage") /\
    len workers <= role_count three_control_nodes "control"
                   + role_count three_control_nodes "compute"
                   + role_count three_control_nodes "storage".
Proof.
  eexists. split; [vm_compute; reflexivity|].
  apply (deploy_workers_are_the_distinct_nodes (H := fragment) three_control_nodes).
  vm_compute. reflexivity.
Defined.

(** ** Zone tables *)






Lemma foldl_add_column (headers : list string) (table : MaasZones.Table) :
  foldl MaasZones.add_column table headers =
    {| MaasZones.columns := MaasZones.columns table ++ headers;
       MaasZones.rows := MaasZones.rows table |}.
Proof.
  revert table. induction headers as [|h headers IH]; intros table; simpl.
  - rewrite app_nil_r. by destruct table.
  - rewrite IH. simpl. by rewrite <- app_assoc.
Qed.

Lemma zones_roles_table_from role_values zone_machines : forall zone_table machine_table,
  foldl (fun tables zm =>
           (MaasZones.add_row (fst tables) [fst zm],
            MaasZones.add_row (snd tables) (MaasZones.role_nb role_values (snd zm))))
        (zone_table, machine_table) zone_machines
  = ({| MaasZones.columns := MaasZones.columns zone_table;
        MaasZones.rows := MaasZones.rows zone_table
                          ++ ((fun zm => [fst zm]) <$> zone_machines) |},
     {| MaasZones.columns := MaasZones.columns machine_table;
        MaasZones.rows := MaasZones.rows machine_table
                          ++ ((fun zm => MaasZones.role_nb role_values (snd zm))
                                <$> zone_machines) |}).
Proof.
  induction zone_machines as [|zm zone_machines IH]; intros zone_table machine_table.
  - cbn [foldl]. rewrite fmap_nil, !app_nil_r. by destruct zone_table, machine_table.
  - cbn [foldl]. rewrite IH. cbn [fst snd MaasZones.add_row MaasZones.columns MaasZones.rows].
    by rewrite !fmap_cons, <- !app_assoc.
Qed.

(** X25: the two tables [_zones_roles_table] puts side by side line up:
    the zone table has its header row and then one row per zone, the
    machine table one row per zone in the same order, and every row of the
    machine table has a cell for each of its columns (one per role, then
    the total, which is the number of machines of the zone). *)
Theorem zones_roles_table_lines_up (role_values : list string)
    (zone_machines : list (string * list MaasZones.Machine)) :
  let zone_table := fst (MaasZones._zones_roles_table role_values zone_machines) in
  let machine_table := snd (MaasZones._zones_roles_table role_values zone_machines) in
  MaasZones.columns machine_table = role_values ++ ["total"] /\
  MaasZones.rows zone_table
    = ["[bold]Zone[/bold]"] :: ((fun zm => [fst zm]) <$> zone_machines) /\
  length (MaasZones.rows zone_table) = S (length (MaasZones.rows machine_table)) /\
  Forall2 (fun row zm =>
             length row = length (MaasZones.columns machine_table) /\
             last row = Some (str_int (len (snd zm))))
          (MaasZones.rows machine_table) zone_machines.
Proof.
  intros zone_table machine_table.
  unfold zone_table, machine_table, MaasZones._zones_roles_table. cbv zeta.
  rewrite zones_roles_table_from, foldl_add_column.
  cbn [fst snd MaasZones.add_row MaasZones.add_column MaasZones.new_table
       MaasZones.columns MaasZones.rows app].
  split; [done|]. split; [done|]. split; [simpl; by rewrite !length_fmap|].
  apply Forall2_fmap_l, Forall_Forall2_diag, Forall_forall. intros zm _.
  unfold MaasZones.role_nb. split.
  - by rewrite !length_app, length_fmap.
  - by rewrite last_snoc.
Qed.

Lemma zones_table_from (zone_machines : list (string * list MaasZones.Machine)) :
  forall table,
    foldl (fun table zm => MaasZones.add_row table [fst zm; str_int (len (snd zm))])
          table zone_machines
    = {| MaasZones.columns := MaasZones.columns table;
         MaasZones.rows := MaasZones.rows table
                           ++ ((fun zm => [fst zm; str_int (len (snd zm))])
                                 <$> zone_machines) |}.
Proof.
  induction zone_machines as [|zm zone_machines IH]; intros table.
  - cbn [foldl]. rewrite fmap_nil, app_nil_r. by destruct table.
  - cbn [foldl]. rewrite IH. cbn [MaasZones.add_row MaasZones.columns MaasZones.rows].
    by rewrite fmap_cons, <- app_assoc.
Qed.

(** X26: the two views of the zones agree: [_zones_table] has one row per
    zone, the zone and its number of machines, and that number is the
    total [_zones_roles_table] shows for the same zone, row by row. *)
Theorem zones_tables_agree (role_values : list string)
    (zone_machines : list (string * list MaasZones.Machine)) :
  MaasZones.columns (MaasZones._zones_table zone_machines) = ["Zone"; "Machines"] /\
  Forall2 (fun row zm => row = [fst zm; str_int (len (snd zm))])
    (MaasZones.rows (MaasZones._zones_table zone_machines)) zone_machines /\
  Forall2 (fun row roles_row => last row = last roles_row)
    (MaasZones.rows (MaasZones._zones_table zone_machines))
    (MaasZones.rows (snd (MaasZones._zones_roles_table role_values zone_machines))).
Proof.
  unfold MaasZones._zones_table, MaasZones._zones_roles_table. cbv zeta.
  rewrite zones_table_from, zones_roles_table_from, foldl_add_column.
  cbn [fst snd MaasZones.add_row MaasZones.add_column MaasZones.new_table
       MaasZones.columns MaasZones.rows app].
  split; [done|]. split.
  - apply Forall2_fmap_l, Forall_Forall2_diag, Forall_forall. by intros zm _.
  - apply Forall2_fmap, Forall_Forall2_diag, Forall_forall. intros zm _.
    unfold MaasZones.role_nb. by rewrite last_snoc.
Qed.
